(** * OTLP/JSON log exporter: a shallow embedding of [app/log_generator.py]

    The development follows the Python module top down:
    - the Python values the exporter handles (exceptions, constructor
      arguments, located objects, logging handlers);
    - the process state the code mutates: the shared logger named
      [OTLPJsonFileExporter], the root logger, the module level logger, and
      the trace of sink writes;
    - a state-and-exception monad in which [__init__], [_translate_data],
      [shutdown] and [export] are written statement by statement;
    - the properties of the exporter. *)

From Stdlib Require Import ZArith Lia DecimalString DecimalNat DecimalFacts.
From stdpp Require Import base option list strings pretty gmap.

Local Open Scope string_scope.
Local Open Scope Z_scope.
Local Open Scope list_scope.

(** ** Exceptions

    The classes matter for [except Exception]: [KeyboardInterrupt],
    [SystemExit] and [GeneratorExit] derive from [BaseException] only. *)
Inductive py_exception : Type :=
  | KeyboardInterrupt
  | SystemExit
  | GeneratorExit
  | PermissionError (what : string)
  | FileNotFoundError (what : string)
  | NotADirectoryError (what : string)
  | NoSpaceLeft (what : string)          (* OSError(errno.ENOSPC) *)
  | BlockingIOError (what : string)
  | TypeError (msg : string)
  | AttributeError (msg : string)
  | ValueError (msg : string)
  | RecursionError
  | EncodingError (msg : string)
  | ErrorDuringImport (msg : string).

#[global] Instance py_exception_eq_dec : EqDecision py_exception.
Proof. solve_decision. Defined.

(** [isinstance(e, Exception)] *)
Definition is_Exception (e : py_exception) : bool :=
  match e with
  | KeyboardInterrupt | SystemExit | GeneratorExit => false
  | _ => true
  end.

Inductive result (A : Type) : Type :=
  | Return (a : A)
  | Raise (e : py_exception).
Arguments Return {A} a.
Arguments Raise {A} e.

(** ** Constructor arguments *)

(** Values found in handler keyword arguments ([maxBytes], [mode], ...). *)
Inductive scalar : Type :=
  | SInt (z : Z)
  | SStr (s : string)
  | SBool (b : bool).

#[global] Instance scalar_eq_dec : EqDecision scalar.
Proof. solve_decision. Defined.

(** [log_handler_kwargs : dict | None]; Python does not enforce the
    annotation, so any other object can be passed as well. *)
Inductive kwargs_arg : Type :=
  | ArgNone
  | ArgDict (d : gmap string scalar)
  | ArgOther (repr : string).

(** [log_path : str | Path] *)
Inductive path_arg : Type :=
  | PStr (s : string)
  | PPath (s : string).

#[global] Instance path_arg_eq_dec : EqDecision path_arg.
Proof. solve_decision. Defined.

(** [log_path == "stdout"]: a [Path] never compares equal to a [str]. *)
Definition path_eq_str (p : path_arg) (s : string) : bool :=
  match p with
  | PStr t => bool_decide (t = s)
  | PPath _ => false
  end.

(** ** Objects found by [pydoc.locate] *)
Inductive located : Type :=
  | LocNone                                         (* nothing by that name *)
  | LocClass (name : string) (mro : list string)    (* a class and its MRO *)
  | LocOther (name : string).                       (* a module, function, ... *)

#[global] Instance located_eq_dec : EqDecision located.
Proof. solve_decision. Defined.

Definition isinstance_type (k : located) : bool :=
  match k with LocClass _ _ => true | _ => false end.

(** [issubclass(klass, bases)] for a tuple of classes *)
Definition issubclass (k : located) (bases : list string) : bool :=
  match k with
  | LocClass _ mro => existsb (fun b => bool_decide (b ∈ mro)) bases
  | _ => false
  end.

Definition allowed_handler_bases : list string :=
  [ "logging.handlers.RotatingFileHandler";
    "logging.handlers.TimedRotatingFileHandler";
    "logging.handlers.WatchedFileHandler" ].

(** The condition tested (negated) at lines 63-73. *)
Definition valid_handler_class (k : located) : bool :=
  isinstance_type k && issubclass k allowed_handler_bases.

(** ** Logging handlers and loggers *)
Inductive stream : Type := sys_stdout | sys_stderr.

Inductive target : Type :=
  | ToStream (s : stream)
  | ToFile (path : path_arg).

Record Handler : Type := mkHandler {
  h_class : string;
  h_target : target;
  h_level : Z;
  h_formatter : option string
}.

#[global] Instance stream_eq_dec : EqDecision stream.
Proof. solve_decision. Defined.
#[global] Instance target_eq_dec : EqDecision target.
Proof. solve_decision. Defined.
#[global] Instance Handler_eq_dec : EqDecision Handler.
Proof. solve_decision. Defined.

(** What calling a located object returns. *)
Inductive py_value : Type :=
  | VHandler (h : Handler)       (* an instance of a logging.Handler class *)
  | VObject (repr : string).     (* anything else *)

Definition NOTSET : Z := 0.
Definition DEBUG : Z := 10.
Definition INFO : Z := 20.
Definition WARNING : Z := 30.

Record Logger : Type := mkLogger {
  level : Z;
  propagate : bool;
  handlers : list Handler
}.

(** A logger as [logging.getLogger(name)] first creates it. *)
Definition fresh_logger : Logger :=
  {| level := NOTSET; propagate := true; handlers := [] |}.

(** ** Log records and the OTLP request *)

Inductive Severity : Type := TRACE | DEBUG_ | INFO_ | WARN | ERROR | FATAL.

(** Modelled from the spec: [LogData] is a class of the OpenTelemetry SDK,
    which the module imports; its fields here are those of the
    specification's LogRecord (section 3). *)
Record LogData : Type := mkLogData {
  timestamp : N;                          (* epoch nanoseconds *)
  severity : Severity;
  body : string;
  attributes : list (string * scalar);
  resource : string
}.

(** An encoded record, opaque to the exporter. *)
Record pb_LogRecord : Type := mkPb { pb_text : string }.

Record ExportLogsServiceRequest : Type := mkRequest {
  log_records : list pb_LogRecord
}.

(** ** Process state *)

(** One [Handler.handle(record)] call, as the logger sees it: the call
    returned, or it raised. What a handler does with the line before it
    returns is the library's business. *)
Inductive sink_event : Type :=
  | Emitted (h : Handler) (line : string)
  | EmitFailed (h : Handler) (line : string) (e : py_exception).

(** A call of the module level [logger.warning(fmt, *args)]. *)
Record WarningCall : Type := mkWarning {
  wc_format : string;
  wc_path : path_arg;
  wc_error : py_exception
}.

Record World : Type := mkWorld {
  exporter_logger : Logger;        (* logging.getLogger("OTLPJsonFileExporter") *)
  root_logger : Logger;            (* its parent *)
  module_log : list WarningCall;   (* logging.getLogger(__name__) *)
  made_dirs : list path_arg;       (* mkdir(parents=True, exist_ok=True) calls *)
  handler_calls : list (located * path_arg * gmap string scalar);
  sink_trace : list sink_event;
  sink_faults : list (option py_exception)   (* outcome of the next emits *)
}.

Definition set_exporter_logger (l : Logger) (w : World) : World :=
  {| exporter_logger := l; root_logger := root_logger w;
     module_log := module_log w; made_dirs := made_dirs w;
     handler_calls := handler_calls w; sink_trace := sink_trace w;
     sink_faults := sink_faults w |}.

Definition add_warning (c : WarningCall) (w : World) : World :=
  {| exporter_logger := exporter_logger w; root_logger := root_logger w;
     module_log := module_log w ++ [c]; made_dirs := made_dirs w;
     handler_calls := handler_calls w; sink_trace := sink_trace w;
     sink_faults := sink_faults w |}.

Definition add_dir (p : path_arg) (w : World) : World :=
  {| exporter_logger := exporter_logger w; root_logger := root_logger w;
     module_log := module_log w; made_dirs := made_dirs w ++ [p];
     handler_calls := handler_calls w; sink_trace := sink_trace w;
     sink_faults := sink_faults w |}.

Definition add_handler_call (c : located * path_arg * gmap string scalar)
    (w : World) : World :=
  {| exporter_logger := exporter_logger w; root_logger := root_logger w;
     module_log := module_log w; made_dirs := made_dirs w;
     handler_calls := handler_calls w ++ [c]; sink_trace := sink_trace w;
     sink_faults := sink_faults w |}.

Definition sink_step (ev : sink_event) (rest : list (option py_exception))
    (w : World) : World :=
  {| exporter_logger := exporter_logger w; root_logger := root_logger w;
     module_log := module_log w; made_dirs := made_dirs w;
     handler_calls := handler_calls w; sink_trace := sink_trace w ++ [ev];
     sink_faults := rest |}.

(** The state of a process that has imported the module and done nothing else. *)
Definition initial_world (root : Logger) (faults : list (option py_exception))
    : World :=
  {| exporter_logger := fresh_logger; root_logger := root;
     module_log := []; made_dirs := []; handler_calls := [];
     sink_trace := []; sink_faults := faults |}.

(** ** The monad of statements: state, plus exceptions that keep the state *)
Definition M (A : Type) : Type := World -> result A * World.

Definition ret {A} (a : A) : M A := fun w => (Return a, w).
Definition raise {A} (e : py_exception) : M A := fun w => (Raise e, w).

Definition bind {A B} (m : M A) (k : A -> M B) : M B :=
  fun w =>
    match m w with
    | (Return a, w') => k a w'
    | (Raise e, w') => (Raise e, w')
    end.

Definition lift {A} (r : result A) : M A := fun w => (r, w).

(** [try: body  except Exception as e: handler(e)] *)
Definition try_except_Exception {A} (body : M A) (handler : py_exception -> M A)
    : M A :=
  fun w =>
    match body w with
    | (Return a, w') => (Return a, w')
    | (Raise e, w') => if is_Exception e then handler e w' else (Raise e, w')
    end.

Declare Scope py_scope.
Delimit Scope py_scope with py.
Notation "x <- m ;; k" := (bind m (fun x => k))
  (at level 100, m at next level, k at level 200, right associativity)
  : py_scope.
Notation "m ;; k" := (bind m (fun _ => k))
  (at level 100, k at level 200, right associativity) : py_scope.
Local Open Scope py_scope.

(** ** What the exporter imports

    [locate], handler construction, [mkdir] and the two encoders are library
    or operating system code; the exporter is verified against any
    behaviour of theirs. Each is answered as a function of its arguments:
    the file system and the modules importable are taken not to change
    between the calls of a run, and [mkdir] leaves no trace that a later
    call could meet. *)
Class Environment : Type := mkEnvironment {
  locate : string -> result located;
  construct : located -> path_arg -> gmap string scalar -> result py_value;
  mkdir_parent : path_arg -> result unit;
  _encode_log : LogData -> result pb_LogRecord;
  MessageToJson : ExportLogsServiceRequest -> string
}.

Record OTLPJsonFileExporter : Type := mkExporter {
  log_path : path_arg
  (* [self.logger] is the shared logger [exporter_logger] of the process *)
}.

Definition _DEFAULT_LOG_HANDLER_KWARGS : gmap string scalar :=
  {[ "maxBytes" := SInt (5 * 1024 * 1024); "backupCount" := SInt 5 ]}.

(** [logging.StreamHandler(stream)] *)
Definition StreamHandler (s : stream) : Handler :=
  {| h_class := "logging.StreamHandler"; h_target := ToStream s;
     h_level := NOTSET; h_formatter := None |}.

Definition invalid_handler_message (log_handler_cls : string) : string :=
  "Invalid log handler class: " +:+ log_handler_cls +:+ ". must be a "
  +:+ "`logging.handlers.RotatingFileHandler` or `logging.handlers.TimedRotatingFileHandler` "
  +:+ "or `logging.handlers.WatchedFileHandler`.".

Definition write_failed_format : string :=
  "Failed to write logs to file: %s. Error: %s".

Section Exporter.
Context {env : Environment}.

(** *** The [logging] calls the exporter makes *)

(** [Handler.handle(record)]: the next entry of [sink_faults] decides
    whether the call returns or raises; the formatter installed by the
    constructor renders a record as its message. *)
Definition Handler_emit (h : Handler) (line : string) : M unit :=
  fun w =>
    match sink_faults w with
    | Some e :: rest => (Raise e, sink_step (EmitFailed h line e) rest w)
    | None :: rest => (Return tt, sink_step (Emitted h line) rest w)
    | [] => (Return tt, sink_step (Emitted h line) [] w)
    end.

Fixpoint call_handlers (hs : list Handler) (levelno : Z) (line : string)
    : M unit :=
  match hs with
  | [] => ret tt
  | h :: hs' =>
      (if h_level h <=? levelno then Handler_emit h line else ret tt) ;;
      call_handlers hs' levelno line
  end.

(** [Logger.callHandlers]: own handlers, then the parent's when
    [propagate] is set. With no handler at all the record goes to
    [lastResort], whose level is WARNING. *)
Definition Logger_callHandlers (levelno : Z) (line : string) : M unit :=
  fun w =>
    let c := exporter_logger w in
    let parent := root_logger w in
    (call_handlers (handlers c) levelno line ;;
     if propagate c
     then call_handlers (handlers parent) levelno line ;;
          if bool_decide (handlers c = [] ∧ handlers parent = [])
             && (WARNING <=? levelno)
          then Handler_emit (StreamHandler sys_stderr) line
          else ret tt
     else
       if bool_decide (handlers c = []) && (WARNING <=? levelno)
       then Handler_emit (StreamHandler sys_stderr) line
       else ret tt) w.

Definition Logger_getEffectiveLevel : M Z :=
  fun w =>
    let l := exporter_logger w in
    (Return (if level l =? NOTSET then level (root_logger w) else level l), w).

(** [self.logger.info(msg)] *)
Definition Logger_info (msg : string) : M unit :=
  eff <- Logger_getEffectiveLevel ;;
  if eff <=? INFO then Logger_callHandlers INFO msg else ret tt.

Definition Logger_setLevel (lvl : Z) : M unit :=
  fun w =>
    let l := exporter_logger w in
    (Return tt,
     set_exporter_logger
       {| level := lvl; propagate := propagate l; handlers := handlers l |} w).

Definition Logger_set_propagate (b : bool) : M unit :=
  fun w =>
    let l := exporter_logger w in
    (Return tt,
     set_exporter_logger
       {| level := level l; propagate := b; handlers := handlers l |} w).

Definition Logger_handlers : M (list Handler) :=
  fun w => (Return (handlers (exporter_logger w)), w).

(** [Logger.addHandler]: appended unless already in the list. *)
Definition Logger_addHandler (h : Handler) : M unit :=
  fun w =>
    let l := exporter_logger w in
    if bool_decide (h ∈ handlers l) then (Return tt, w)
    else (Return tt,
          set_exporter_logger
            {| level := level l; propagate := propagate l;
               handlers := handlers l ++ [h] |} w).

(** [handler.setFormatter(formatter)] on whatever the call returned *)
Definition with_formatter (h : Handler) (fmt : string) : Handler :=
  {| h_class := h_class h; h_target := h_target h;
     h_level := h_level h; h_formatter := Some fmt |}.

Definition no_setFormatter (r : string) : py_exception :=
  AttributeError (r +:+ " object has no attribute 'setFormatter'").

Definition setFormatter (v : py_value) (fmt : string) : M Handler :=
  match v with
  | VHandler h => ret (with_formatter h fmt)
  | VObject r => raise (no_setFormatter r)
  end.

(** The module level [logger.warning(fmt, self.log_path, e)]: the call is
    recorded with its arguments. *)
Definition logger_warning (fmt : string) (p : path_arg) (e : py_exception)
    : M unit :=
  fun w => (Return tt, add_warning (mkWarning fmt p e) w).

(** [Path(p).parent.mkdir(parents=True, exist_ok=True)] *)
Definition mkdir (p : path_arg) : M unit :=
  fun w =>
    match mkdir_parent p with
    | Return _ => (Return tt, add_dir p w)
    | Raise e => (Raise e, w)
    end.

(** [klass(self.log_path, **log_handler_kwargs)]: calling [None] is a
    [TypeError]; anything else answers as the environment says. *)
Definition call_outcome (klass : located) (p : path_arg)
    (kw : gmap string scalar) : result py_value :=
  match klass with
  | LocNone => Raise (TypeError "'NoneType' object is not callable")
  | _ => construct klass p kw
  end.

Definition call_located (klass : located) (p : path_arg)
    (kw : gmap string scalar) : M py_value :=
  fun w => (call_outcome klass p kw, add_handler_call (klass, p, kw) w).

(** *** [OTLPJsonFileExporter.__init__] (lines 37-84) *)

(** Line 46: the argument when it is a dict, the defaults otherwise. *)
Definition effective_kwargs (log_handler_kwargs : kwargs_arg)
    : gmap string scalar :=
  match log_handler_kwargs with
  | ArgDict d => d
  | _ => _DEFAULT_LOG_HANDLER_KWARGS
  end.

Definition __init__ (log_path : path_arg) (log_handler_cls : string)
    (log_handler_kwargs : kwargs_arg) : M OTLPJsonFileExporter :=
  let self := {| log_path := log_path |} in
  let log_handler_kwargs := effective_kwargs log_handler_kwargs in
  mkdir log_path ;;
  Logger_setLevel DEBUG ;;
  Logger_set_propagate false ;;
  let handler := VHandler (mkHandler "logging.Handler" (ToStream sys_stderr)
                             NOTSET None) in
  hs <- Logger_handlers ;;
  (if bool_decide (hs = []) then
     handler <-
       (if path_eq_str log_path "stdout" then
          ret (VHandler (StreamHandler sys_stdout))
        else
          klass <- lift (locate log_handler_cls) ;;
          let msg :=
            if negb (valid_handler_class klass)
            then Some (invalid_handler_message log_handler_cls)
            else None in
          call_located klass log_path log_handler_kwargs) ;;
     h <- setFormatter handler "%(message)s" ;;
     Logger_addHandler h
   else ret tt) ;;
  ret self.

(** *** The encoding stage (lines 86-87, 94-95) *)

(** Modelled from the spec: [encode_logs] is the OTLP log encoder of the
    OpenTelemetry library, imported by the module and not part of it.
    Section 4.1 of the specification describes it as a pure function of the
    ordered records that keeps their order and fails only on a malformed
    record, hence never on the empty sequence. Encoding one record is left
    to the environment ([_encode_log]). *)
Fixpoint encode_records (data : list LogData) : result (list pb_LogRecord) :=
  match data with
  | [] => Return []
  | d :: rest =>
      match _encode_log d with
      | Raise e => Raise e
      | Return r =>
          match encode_records rest with
          | Raise e => Raise e
          | Return rs => Return (r :: rs)
          end
      end
  end.

(** Modelled from the spec: [encode_logs] proper, the request built from
    the encoded records in their order (section 4.1). *)
Definition encode_logs (data : list LogData)
    : result ExportLogsServiceRequest :=
  match encode_records data with
  | Return rs => Return {| log_records := rs |}
  | Raise e => Raise e
  end.

Definition _translate_data (self : OTLPJsonFileExporter)
    (data : list LogData) : M ExportLogsServiceRequest :=
  lift (encode_logs data).

(** The two statements of [export] before the [try]. *)
Definition encoding_stage (self : OTLPJsonFileExporter)
    (batch : list LogData) : M string :=
  service_request <- _translate_data self batch ;;
  ret (MessageToJson service_request).

(** *** [shutdown] (lines 89-90): a docstring and nothing else *)
Definition shutdown (self : OTLPJsonFileExporter) : M unit := ret tt.

(** *** [export] (lines 92-104) *)
Definition export (self : OTLPJsonFileExporter) (batch : list LogData)
    : M unit :=
  json_str <- encoding_stage self batch ;;
  try_except_Exception
    (Logger_info json_str)
    (fun e => logger_warning write_failed_format (log_path self) e).

End Exporter.

(** ** The calls a process makes on the exporter *)
Inductive call : Type :=
  | Construct (log_path : path_arg) (log_handler_cls : string)
      (log_handler_kwargs : kwargs_arg)
  | Export (self : OTLPJsonFileExporter) (batch : list LogData)
  | Shutdown (self : OTLPJsonFileExporter).

Section Calls.
Context {env : Environment}.

Definition run_call (c : call) (w : World) : result unit * World :=
  match c with
  | Construct p cls kw =>
      match __init__ p cls kw w with
      | (Return _, w') => (Return tt, w')
      | (Raise e, w') => (Raise e, w')
      end
  | Export self batch => export self batch w
  | Shutdown self => shutdown self w
  end.

(** The calls run in order; a caller may survive a raised exception, so
    the run goes on after one. The outcomes are kept. *)
Fixpoint run_calls (cs : list call) (w : World)
    : list (result unit) * World :=
  match cs with
  | [] => ([], w)
  | c :: cs' =>
      let (r, w') := run_call c w in
      let (rs, w'') := run_calls cs' w' in
      (r :: rs, w'')
  end.


Fixpoint shutdown_times (n : nat) (self : OTLPJsonFileExporter) : M unit :=
  match n with
  | O => ret tt
  | S n' => shutdown self ;; shutdown_times n' self
  end.
End Calls.

(** ** A concrete environment, on which the statements below are run *)
Module Example.

Definition file_handler_mro : list string :=
  [ "logging.FileHandler"; "logging.StreamHandler"; "logging.Handler";
    "logging.Filterer"; "builtins.object" ].

Definition example_locate (name : string) : result located :=
  if bool_decide (name = "logging.handlers.RotatingFileHandler") then
    Return (LocClass name
              (name :: "logging.handlers.BaseRotatingHandler" :: file_handler_mro))
  else if bool_decide (name = "logging.handlers.TimedRotatingFileHandler") then
    Return (LocClass name
              (name :: "logging.handlers.BaseRotatingHandler" :: file_handler_mro))
  else if bool_decide (name = "logging.handlers.WatchedFileHandler") then
    Return (LocClass name (name :: file_handler_mro))
  else if bool_decide (name = "logging.FileHandler") then
    Return (LocClass name file_handler_mro)
  else if bool_decide (name = "builtins.list") then
    Return (LocClass name [name; "builtins.object"])
  else if bool_decide (name = "os.path.basename") then
    Return (LocOther name)
  else if bool_decide (name = "broken.module.Handler") then
    Raise (ErrorDuringImport "problem in broken.module")
  else Return LocNone.

Definition accepted_keywords (name : string) : list string :=
  if bool_decide (name = "logging.handlers.RotatingFileHandler") then
    ["mode"; "maxBytes"; "backupCount"; "encoding"; "delay"; "errors"]
  else if bool_decide (name = "logging.handlers.TimedRotatingFileHandler") then
    ["when"; "interval"; "backupCount"; "encoding"; "delay"; "utc";
     "atTime"; "errors"]
  else ["mode"; "encoding"; "delay"; "errors"].

Definition example_construct (klass : located) (p : path_arg)
    (kw : gmap string scalar) : result py_value :=
  match klass with
  | LocClass name mro =>
      if bool_decide ("logging.FileHandler" ∈ mro) then
        if forallb (fun k => bool_decide (k ∈ accepted_keywords name))
             (map fst (map_to_list kw))
        then Return (VHandler {| h_class := name; h_target := ToFile p;
                                 h_level := NOTSET; h_formatter := None |})
        else Raise (TypeError "__init__() got an unexpected keyword argument")
      else if bool_decide (kw = ∅) then Return (VObject "'list'")
      else Raise (TypeError "list() takes no keyword arguments")
  | LocOther name =>
      if bool_decide (kw = ∅) then Return (VObject "'str'")
      else Raise (TypeError "basename() got an unexpected keyword argument")
  | LocNone => Raise (TypeError "'NoneType' object is not callable")
  end.

Definition example_mkdir_parent (p : path_arg) : result unit :=
  if bool_decide (p = PStr "/proc/denied/service.log")
  then Raise (PermissionError "/proc/denied")
  else Return tt.

(** A body holding the byte 255 is not UTF-8. *)
Definition example_encode_log (d : LogData) : result pb_LogRecord :=
  if bool_decide (Ascii.ascii_of_nat 255 ∈ String.list_ascii_of_string (body d))
  then Raise (EncodingError "body is not valid UTF-8")
  else Return {| pb_text := pretty (timestamp d) +:+ " " +:+ body d |}.

(** A stand-in for the JSON text, enough to tell payloads apart. *)
Definition example_MessageToJson (r : ExportLogsServiceRequest) : string :=
  match log_records r with
  | [] => "{}"
  | rs => "{resource_logs: [" +:+ String.concat ", " (map pb_text rs) +:+ "]}"
  end.

#[local] Instance example_env : Environment :=
  {| locate := example_locate;
     construct := example_construct;
     mkdir_parent := example_mkdir_parent;
     _encode_log := example_encode_log;
     MessageToJson := example_MessageToJson |}.

Definition no_root : Logger :=
  {| level := WARNING; propagate := true; handlers := [] |}.

Definition record1 : LogData :=
  {| timestamp := 1700000000000000000%N; severity := INFO_;
     body := "Service heartbeat OK."; attributes := [("user_id", SInt 7)];
     resource := "example-service" |}.

Definition stdout_exporter : OTLPJsonFileExporter := {| log_path := PStr "stdout" |}.
Definition file_exporter : OTLPJsonFileExporter :=
  {| log_path := PStr "logs/otel/service.log" |}.

End Example.

(** ** The retry policy of the specification, for comparison with [export]

    The specification (sections 4.2 and 4.3) sorts sink errors in two kinds
    and retries the transient ones. The module has no such code; the policy
    is written here from the specification's words. *)
Inductive SinkErrorKind : Type := Transient | Permanent.

(** Disk full and contention are transient; an invalid path and a refused
    permission are permanent. *)
Definition sink_error_kind (e : py_exception) : option SinkErrorKind :=
  match e with
  | NoSpaceLeft _ | BlockingIOError _ => Some Transient
  | PermissionError _ | FileNotFoundError _ | NotADirectoryError _ =>
      Some Permanent
  | _ => None
  end.



Section SpecifiedFlush.
Context {env : Environment}.

End SpecifiedFlush.

(** The shared logger as a returning constructor leaves it when it had to
    install the handler [h]. *)
Definition ready (w : World) (h : Handler) : Prop :=
  exporter_logger w = {| level := DEBUG; propagate := false; handlers := [h] |}
  ∧ h_level h <= INFO.

(** [StreamHandler(sys.stdout)] after [setFormatter]. *)
Definition stdout_handler : Handler :=
  {| h_class := "logging.StreamHandler"; h_target := ToStream sys_stdout;
     h_level := NOTSET; h_formatter := Some "%(message)s" |}.

(** The targets a stretch of the sink trace wrote to or tried to. *)
Definition event_target (ev : sink_event) : target :=
  match ev with
  | Emitted h _ => h_target h
  | EmitFailed h _ _ => h_target h
  end.

Module ExampleRuns.
Import Example.
#[local] Existing Instance example_env.

(** A process whose first act is to build an exporter on standard output. *)
Definition stdout_world (faults : list (option py_exception)) : World :=
  snd (__init__ (PStr "stdout") "logging.handlers.RotatingFileHandler"
         ArgNone (initial_world no_root faults)).

(** A process whose first act is to build the default file exporter. *)
Definition file_world (faults : list (option py_exception)) : World :=
  snd (__init__ (PStr "logs/otel/service.log")
         "logging.handlers.RotatingFileHandler" ArgNone
         (initial_world no_root faults)).

Definition rotating_handler : Handler :=
  {| h_class := "logging.handlers.RotatingFileHandler";
     h_target := ToFile (PStr "logs/otel/service.log");
     h_level := NOTSET; h_formatter := Some "%(message)s" |}.

Definition payload1 : string :=
  "{resource_logs: [1700000000000000000 Service heartbeat OK.]}".




(** A file exporter is built first, an exporter on standard output second. *)
Definition second_exporter_run : result OTLPJsonFileExporter * World :=
  __init__ (PStr "stdout") "logging.handlers.RotatingFileHandler" ArgNone
    (file_world []).

Definition file_handler_class : located :=
  LocClass "logging.FileHandler" file_handler_mro.

Definition rotating_class : located :=
  LocClass "logging.handlers.RotatingFileHandler"
    ("logging.handlers.RotatingFileHandler"
     :: "logging.handlers.BaseRotatingHandler" :: file_handler_mro).



Definition service_log : path_arg := PStr "logs/otel/service.log".
Definition start : World := initial_world no_root [].
End ExampleRuns.

(** The state once lines 44-53 have run: the directory is made, the level
    and the propagate flag are set. *)
Definition after_prelude (p : path_arg) (w : World) : World :=
  set_exporter_logger
    {| level := DEBUG; propagate := false;
       handlers := handlers (exporter_logger w) |}
    (add_dir p w).

(** The state once [h] has been appended to the handlers of the logger. *)
Definition install_handler (h : Handler) (w : World) : World :=
  set_exporter_logger
    {| level := level (exporter_logger w);
       propagate := propagate (exporter_logger w);
       handlers := handlers (exporter_logger w) ++ [h] |} w.

(** [w'] differs from [w] in what was written and logged only: loggers and
    handler constructions are those of [w], and the sink trace grew by
    [evs]. *)
Definition wrote (w w' : World) (evs : list sink_event) : Prop :=
  exporter_logger w' = exporter_logger w
  ∧ root_logger w' = root_logger w
  ∧ handler_calls w' = handler_calls w
  ∧ sink_trace w' = sink_trace w ++ evs.

(** ** Runs of exports *)

Section Payloads.
Context {env : Environment}.

(** The text [export] hands to the logger for a batch (lines 94-95), or the
    exception the encoders raise. *)
Definition json_payload (batch : list LogData) : result string :=
  match encode_logs batch with
  | Return rq => Return (MessageToJson rq)
  | Raise e => Raise e
  end.

(** The payloads of the batches that encode, in order. *)
Definition payloads (batches : list (list LogData)) : list string :=
  flat_map (fun b => match json_payload b with
                     | Return p => [p]
                     | Raise _ => []
                     end) batches.
End Payloads.

Definition event_line (ev : sink_event) : string :=
  match ev with
  | Emitted _ line => line
  | EmitFailed _ line _ => line
  end.

Definition event_handler (ev : sink_event) : Handler :=
  match ev with
  | Emitted h _ => h
  | EmitFailed h _ _ => h
  end.

(** The error of a failed write that [except Exception] catches. *)
Definition caught_error (ev : sink_event) : list py_exception :=
  match ev with
  | EmitFailed _ _ e => if is_Exception e then [e] else []
  | Emitted _ _ => []
  end.

Module MoreExamples.
Import Example.

(** A record whose body is not UTF-8. *)
Definition bad_record : LogData :=
  {| timestamp := 1700000000000000001%N; severity := ERROR;
     body := String (Ascii.ascii_of_nat 255) "x"; attributes := [];
     resource := "example-service" |}.
End MoreExamples.

(** ** [setup_logging] (lines 107-151) *)

(** A dict display [{k1: v1, k2: v2, ...}]: the items are stored from left
    to right, a later one replacing an earlier one with the same key. *)
Definition dict_display {V : Type} (items : list (string * V))
    : gmap string V :=
  foldl (fun d kv => <[kv.1 := kv.2]> d) ∅ items.

(** The items of the display at lines 113-129, as written. *)
Definition resource_items : list (string * string) :=
  [ ("service.name", "example-service");
    ("service.version", "1.0.0");
    ("deployment.environment", "dev");
    ("jurisdiction", "jur");
    ("provider", "provider");
    ("role", "role");
    ("key1", "value1");
    ("key2", "value2");
    ("key3", "value3");
    ("key4", "value4");
    ("key5", "value5");
    ("key6", "value6");
    ("key7", "value7");
    ("key8", "value8");
    ("key8", "value9") ].

(** The argument of [Resource.create]. *)
Definition resource_attributes : gmap string string :=
  dict_display resource_items.

(** The objects of the OpenTelemetry SDK that [setup_logging] builds, each
    with what the function puts in it: the provider with its resource
    attributes and the exporters of its batch processors, the logging
    handler with its level and provider. *)
Record LoggerProvider : Type := mkProvider {
  lp_resource : gmap string string;
  lp_exporters : list OTLPJsonFileExporter
}.

Record LoggingHandler : Type := mkLoggingHandler {
  lh_level : Z;
  lh_provider : LoggerProvider
}.

(** The process as [setup_logging] sees it: the state the exporter works
    on, and the SDK handlers registered on the root logger. *)
Record Process : Type := mkProcess {
  world : World;
  root_sdk_handlers : list LoggingHandler
}.

Definition set_root_logger (l : Logger) (w : World) : World :=
  {| exporter_logger := exporter_logger w; root_logger := l;
     module_log := module_log w; made_dirs := made_dirs w;
     handler_calls := handler_calls w; sink_trace := sink_trace w;
     sink_faults := sink_faults w |}.

Section SetupLogging.
Context {env : Environment}.

(** The function returns [logging.getLogger(__name__)], here [tt]. A
    [LoggingHandler] just built is a new object, so [addHandler] appends
    it. *)
Definition setup_logging (export_path : path_arg) (ps : Process)
    : result unit * Process :=
  let resource := resource_attributes in
  match __init__ export_path "logging.handlers.WatchedFileHandler"
          (ArgDict {[ "mode" := SStr "a" ]}) (world ps) with
  | (Raise e, w1) =>
      (Raise e, {| world := w1; root_sdk_handlers := root_sdk_handlers ps |})
  | (Return exporter, w1) =>
      let provider :=
        {| lp_resource := resource; lp_exporters := [exporter] |} in
      let handler := {| lh_level := INFO; lh_provider := provider |} in
      let root := root_logger w1 in
      (Return tt,
       {| world :=
            set_root_logger
              {| level := INFO; propagate := propagate root;
                 handlers := handlers root |} w1;
          root_sdk_handlers := root_sdk_handlers ps ++ [handler] |})
  end.

(** [setup_logging] called for each path in turn; the outcomes are kept. *)
Fixpoint run_setups (paths : list path_arg) (ps : Process)
    : list (result unit) * Process :=
  match paths with
  | [] => ([], ps)
  | p :: rest =>
      let (r, ps') := setup_logging p ps in
      let (rs, ps'') := run_setups rest ps' in
      (r :: rs, ps'')
  end.
End SetupLogging.

(** The SDK calls of [setup_logging], in the order it makes them: each
    returns ([None]) or raises. *)
Record SdkOutcomes : Type := mkSdk {
  sdk_resource_create : option py_exception;    (* Resource.create, line 112 *)
  sdk_logger_provider : option py_exception;    (* LoggerProvider, line 133 *)
  sdk_batch_processor : option py_exception;    (* BatchLogRecordProcessor, line 143 *)
  sdk_add_processor : option py_exception;      (* add_log_record_processor, line 144 *)
  sdk_logging_handler : option py_exception     (* LoggingHandler, line 147 *)
}.

Definition sdk_all_return : SdkOutcomes :=
  {| sdk_resource_create := None; sdk_logger_provider := None;
     sdk_batch_processor := None; sdk_add_processor := None;
     sdk_logging_handler := None |}.

Section SetupLoggingWithFailures.
Context {env : Environment}.

(** [setup_logging] statement by statement, with SDK calls that may raise.
    The two calls on the root logger, [addHandler] and [setLevel], come
    last. *)
Definition setup_logging_with (sdk : SdkOutcomes) (export_path : path_arg)
    (ps : Process) : result unit * Process :=
  match sdk_resource_create sdk with
  | Some e => (Raise e, ps)
  | None =>
  match sdk_logger_provider sdk with
  | Some e => (Raise e, ps)
  | None =>
  match __init__ export_path "logging.handlers.WatchedFileHandler"
          (ArgDict {[ "mode" := SStr "a" ]}) (world ps) with
  | (Raise e, w1) =>
      (Raise e, {| world := w1; root_sdk_handlers := root_sdk_handlers ps |})
  | (Return exporter, w1) =>
      let built :=
        {| world := w1; root_sdk_handlers := root_sdk_handlers ps |} in
      match sdk_batch_processor sdk with
      | Some e => (Raise e, built)
      | None =>
      match sdk_add_processor sdk with
      | Some e => (Raise e, built)
      | None =>
      match sdk_logging_handler sdk with
      | Some e => (Raise e, built)
      | None =>
          let provider :=
            {| lp_resource := resource_attributes;
               lp_exporters := [exporter] |} in
          let handler := {| lh_level := INFO; lh_provider := provider |} in
          let root := root_logger w1 in
          (Return tt,
           {| world :=
                set_root_logger
                  {| level := INFO; propagate := propagate root;
                     handlers := handlers root |} w1;
              root_sdk_handlers := root_sdk_handlers ps ++ [handler] |})
      end end end
  end end end.
End SetupLoggingWithFailures.

Definition returned (r : result unit) : bool :=
  match r with Return _ => true | Raise _ => false end.

(** ** The demo loop (lines 153-190) *)

Definition MESSAGES : list (string * string) :=
  [ ("info", "Service heartbeat OK.");
    ("warning", "Slow response from dependency.");
    ("error", "Transient failure processing request.") ].

Definition LEVEL_ERROR : Z := 40.

(** [str(i)] for a natural number *)
Definition str_of_nat (i : nat) : string :=
  DecimalString.NilEmpty.string_of_uint (Nat.to_uint i).

Fixpoint zeros (n : nat) : string :=
  match n with
  | O => EmptyString
  | S n' => String (Ascii.ascii_of_nat 48) (zeros n')
  end.

(** [format(i, "06d")]: zero padded on the left to six characters, never
    cut. *)
Definition format_06d (i : nat) : string :=
  zeros (6 - String.length (str_of_nat i)) +:+ str_of_nat i.

(** [f"req-{i:06d}"] *)
Definition request_id (i : nat) : string := "req-" +:+ format_06d i.

(** What the [random] module hands out in one turn of the loop. *)
Record Draws : Type := mkDraws {
  d_message : string * string;     (* random.choice(MESSAGES) *)
  d_user_id : Z;                   (* random.randint(1, 1000) *)
  d_latency_ms : Z;                (* random.randint(5, 500) *)
  d_error_code : Z                 (* random.choice([400, 404, 500, 503]) *)
}.

(** A call [logger.info/warning/error(msg, extra=...)]. *)
Record AppLogCall : Type := mkAppLogCall {
  al_level : Z;
  al_msg : string;
  al_extra : gmap string scalar
}.

(** The body of the loop up to the [sleep] (lines 170-184). *)
Definition turn_call (i : nat) (d : Draws) : AppLogCall :=
  let (level, msg) := d_message d in
  let extra : gmap string scalar :=
    dict_display [ ("request_id", SStr (request_id i));
                   ("user_id", SInt (d_user_id d));
                   ("latency_ms", SInt (d_latency_ms d)) ] in
  if bool_decide (level = "info") then
    {| al_level := INFO; al_msg := msg; al_extra := extra |}
  else if bool_decide (level = "warning") then
    {| al_level := WARNING; al_msg := msg; al_extra := extra |}
  else
    {| al_level := LEVEL_ERROR; al_msg := msg;
       al_extra := <["error_code" := SInt (d_error_code d)]> extra |}.

(** What happens to a turn of the loop besides its draws: nothing, or an
    exception raised before the logging call or after it (during the
    sleep). *)
Inductive Interruption : Type :=
  | Undisturbed
  | RaisedBeforeLog (e : py_exception)
  | RaisedAfterLog (e : py_exception).

Record Turn : Type := mkTurn {
  t_draws : Draws;
  t_interruption : Interruption
}.

Inductive Outcome : Type :=
  | StillLooping
  | ExitedCleanly
  | Crashed (e : py_exception).

(** [except KeyboardInterrupt: pass] around the loop *)
Definition loop_exit (e : py_exception) : Outcome :=
  match e with
  | KeyboardInterrupt => ExitedCleanly
  | _ => Crashed e
  end.

(** The loop [for i in itertools.count(i): ...] over the turns the
    environment has in store; it has no exit of its own. *)
Fixpoint main_loop (i : nat) (turns : list Turn) (log : list AppLogCall)
    : Outcome * list AppLogCall :=
  match turns with
  | [] => (StillLooping, log)
  | t :: rest =>
      match t_interruption t with
      | RaisedBeforeLog e => (loop_exit e, log)
      | RaisedAfterLog e => (loop_exit e, log ++ [turn_call i (t_draws t)])
      | Undisturbed => main_loop (S i) rest (log ++ [turn_call i (t_draws t)])
      end
  end.

Definition main (turns : list Turn) : Outcome * list AppLogCall :=
  main_loop 1 turns [].

Definition interrupted (t : Turn) : bool :=
  match t_interruption t with Undisturbed => false | _ => true end.

(** The exception that ends the loop, if one is in store. *)
Fixpoint first_interruption (turns : list Turn) : option py_exception :=
  match turns with
  | [] => None
  | t :: rest =>
      match t_interruption t with
      | Undisturbed => first_interruption rest
      | RaisedBeforeLog e => Some e
      | RaisedAfterLog e => Some e
      end
  end.

Definition call_request_id (c : AppLogCall) : option scalar :=
  al_extra c !! "request_id".

(** How many calls of a run returned. *)
Definition returns_count (outs : list (result unit)) : nat :=
  length (List.filter returned outs).

Module FurtherExamples.
Import Example MoreExamples.

(** A write refused, then writes that go through. *)
Definition refused_once_world : World :=
  ExampleRuns.stdout_world [Some (PermissionError "stdout"); None].

Definition three_batches : list (list LogData) :=
  [ [record1]; [bad_record]; [record1; record1] ].

Definition fresh_process : Process :=
  {| world := ExampleRuns.start; root_sdk_handlers := [] |}.

Definition watched_class : located :=
  LocClass "logging.handlers.WatchedFileHandler"
    ("logging.handlers.WatchedFileHandler" :: file_handler_mro).

(** The SDK refuses to build the batch processor. *)
Definition processor_fails : SdkOutcomes :=
  {| sdk_resource_create := None; sdk_logger_provider := None;
     sdk_batch_processor :=
       Some (ValueError "max_export_batch_size must be a positive integer.");
     sdk_add_processor := None; sdk_logging_handler := None |}.

Definition error_draws : Draws :=
  {| d_message := ("error", "Transient failure processing request.");
     d_user_id := 7; d_latency_ms := 120; d_error_code := 503 |}.
End FurtherExamples.

(** * Properties *)

Section EncodingProperties.
Context {env : Environment}.

Lemma encoding_stage_run self batch w :
  encoding_stage self batch w =
    (match encode_logs batch with
     | Return rq => Return (MessageToJson rq)
     | Raise e => Raise e
     end, w).
Proof.
  unfold encoding_stage, _translate_data, bind, lift, ret.
  destruct (encode_logs batch); reflexivity.
Qed.

End EncodingProperties.

Section ShutdownProperties.
Context {env : Environment}.

(** C7. Any number of [shutdown] calls in a row return normally and
    leave the state of the process, hence of the exporter, as it was:
    every call, the first included, is a no-op. *)
Theorem shutdown_idempotent (n : nat) self w :
  shutdown_times n self w = (Return tt, w)
  ∧ shutdown self (snd (shutdown_times n self w)) = (Return tt, w).
Proof.
  assert (H : shutdown_times n self w = (Return tt, w)).
  { induction n as [|n IH]; [reflexivity|].
    simpl. unfold bind, shutdown, ret in *. exact IH. }
  rewrite H. split; reflexivity.
Qed.
End ShutdownProperties.

Section ExportProperties.
Context {env : Environment}.

Lemma export_run self batch w payload :
  fst (encoding_stage self batch w) = Return payload →
  export self batch w =
    try_except_Exception (Logger_info payload)
      (fun e => logger_warning write_failed_format (log_path self) e) w.
Proof.
  intros H. unfold export, bind.
  rewrite encoding_stage_run in *. simpl in H.
  destruct (encode_logs batch); [|discriminate].
  injection H as ->. reflexivity.
Qed.

(** An exception of the encoders is raised before the [try] and leaves
    [export] as it is. *)
Lemma export_encoding_error self batch w e :
  fst (encoding_stage self batch w) = Raise e →
  export self batch w = (Raise e, w).
Proof.
  intros H. unfold export, bind.
  rewrite encoding_stage_run in *. simpl in H.
  destruct (encode_logs batch); [discriminate|].
  injection H as ->. reflexivity.
Qed.

Lemma Handler_emit_cases h line w :
  match sink_faults w with
  | Some e :: rest =>
      Handler_emit h line w = (Raise e, sink_step (EmitFailed h line e) rest w)
  | _ :: rest =>
      Handler_emit h line w = (Return tt, sink_step (Emitted h line) rest w)
  | [] =>
      Handler_emit h line w = (Return tt, sink_step (Emitted h line) [] w)
  end.
Proof.
  unfold Handler_emit. destruct (sink_faults w) as [|[e|] rest]; reflexivity.
Qed.

(** With one handler and no propagation, [info] is one [emit]. *)
Lemma info_ready w h line :
  ready w h → Logger_info line w = Handler_emit h line w.
Proof.
  intros [Hl Hh].
  unfold Logger_info, bind, Logger_getEffectiveLevel. rewrite Hl. simpl.
  unfold Logger_callHandlers. rewrite Hl. simpl. unfold bind.
  apply Z.leb_le in Hh. rewrite Hh.
  pose proof (Handler_emit_cases h line w) as Hc.
  destruct (sink_faults w) as [|[e|] rest]; rewrite Hc; reflexivity.
Qed.

Lemma permanent_is_Exception e :
  sink_error_kind e = Some Permanent → is_Exception e = true.
Proof. destruct e; simpl; congruence. Qed.

Lemma transient_is_Exception e :
  sink_error_kind e = Some Transient → is_Exception e = true.
Proof. destruct e; simpl; congruence. Qed.



End ExportProperties.


Section SinkFailure.
Context {env : Environment}.


End SinkFailure.

Section ExportRuns.
Import Example ExampleRuns.
#[local] Existing Instance example_env.






End ExportRuns.

Section ConstructorProperties.
Context {env : Environment}.

Lemma init_mkdir_fails p cls a w e :
  mkdir_parent p = Raise e → __init__ p cls a w = (Raise e, w).
Proof. intros H. unfold __init__, bind, mkdir. rewrite H. reflexivity. Qed.

(** A logger that has a handler keeps its handlers. *)
Lemma init_keeps_handlers p cls a w u :
  mkdir_parent p = Return u →
  handlers (exporter_logger w) ≠ [] →
  __init__ p cls a w = (Return {| log_path := p |}, after_prelude p w).
Proof.
  intros Hm Hh. unfold __init__, bind, mkdir. rewrite Hm. simpl.
  rewrite bool_decide_eq_false_2 by exact Hh. reflexivity.
Qed.

Lemma init_stdout p cls a w u :
  mkdir_parent p = Return u →
  handlers (exporter_logger w) = [] →
  path_eq_str p "stdout" = true →
  __init__ p cls a w =
    (Return {| log_path := p |},
     install_handler stdout_handler (after_prelude p w)).
Proof.
  intros Hm Hh Hp. unfold __init__, bind, mkdir. rewrite Hm. simpl.
  rewrite bool_decide_eq_true_2 by exact Hh. rewrite Hp. simpl.
  unfold Logger_addHandler. simpl. rewrite Hh.
  rewrite bool_decide_eq_false_2 by (apply not_elem_of_nil).
  unfold install_handler, after_prelude. simpl. rewrite Hh. reflexivity.
Qed.

Lemma init_locate_fails p cls a w u e :
  mkdir_parent p = Return u →
  handlers (exporter_logger w) = [] →
  path_eq_str p "stdout" = false →
  locate cls = Raise e →
  __init__ p cls a w = (Raise e, after_prelude p w).
Proof.
  intros Hm Hh Hp Hl. unfold __init__, bind, mkdir. rewrite Hm. simpl.
  rewrite bool_decide_eq_true_2 by exact Hh. rewrite Hp.
  unfold lift. rewrite Hl. reflexivity.
Qed.

(** The file branch: the located object is called, whatever it is, and
    what it returns is used as the handler. *)
Lemma init_file p cls a w u klass :
  mkdir_parent p = Return u →
  handlers (exporter_logger w) = [] →
  path_eq_str p "stdout" = false →
  locate cls = Return klass →
  __init__ p cls a w =
    match call_outcome klass p (effective_kwargs a) with
    | Raise e =>
        (Raise e,
         add_handler_call (klass, p, effective_kwargs a) (after_prelude p w))
    | Return (VObject r) =>
        (Raise (no_setFormatter r),
         add_handler_call (klass, p, effective_kwargs a) (after_prelude p w))
    | Return (VHandler h) =>
        (Return {| log_path := p |},
         install_handler (with_formatter h "%(message)s")
           (add_handler_call (klass, p, effective_kwargs a)
              (after_prelude p w)))
    end.
Proof.
  intros Hm Hh Hp Hl. unfold __init__, bind, mkdir. rewrite Hm. simpl.
  rewrite bool_decide_eq_true_2 by exact Hh. rewrite Hp.
  unfold lift. rewrite Hl. unfold call_located.
  destruct (call_outcome klass p (effective_kwargs a)) as [[h|r]|e];
    simpl; try reflexivity.
  unfold Logger_addHandler. simpl. rewrite Hh.
  rewrite bool_decide_eq_false_2 by (apply not_elem_of_nil).
  unfold install_handler, after_prelude. simpl. rewrite Hh. reflexivity.
Qed.

(** What a constructor call can do to the shared logger. *)
Lemma init_logger_cases p cls a w :
  (snd (__init__ p cls a w) = w ∧ ∃ e, fst (__init__ p cls a w) = Raise e)
  ∨ (level (exporter_logger (snd (__init__ p cls a w))) = DEBUG
     ∧ propagate (exporter_logger (snd (__init__ p cls a w))) = false
     ∧ root_logger (snd (__init__ p cls a w)) = root_logger w
     ∧ (handlers (exporter_logger (snd (__init__ p cls a w)))
          = handlers (exporter_logger w)
        ∨ (handlers (exporter_logger w) = []
           ∧ ∃ h, fst (__init__ p cls a w) = Return {| log_path := p |}
                  ∧ handlers (exporter_logger (snd (__init__ p cls a w)))
                    = [h]))).
Proof.
  destruct (mkdir_parent p) as [u|e] eqn:Hm.
  2:{ left. rewrite (init_mkdir_fails _ _ _ _ _ Hm). eauto. }
  right.
  destruct (decide (handlers (exporter_logger w) = [])) as [Hh|Hh].
  2:{ rewrite (init_keeps_handlers _ _ _ _ _ Hm Hh). simpl. auto. }
  destruct (path_eq_str p "stdout") eqn:Hp.
  { rewrite (init_stdout _ _ _ _ _ Hm Hh Hp). simpl. rewrite Hh.
    repeat split; eauto. }
  destruct (locate cls) as [klass|e] eqn:Hl.
  2:{ rewrite (init_locate_fails _ _ _ _ _ _ Hm Hh Hp Hl). simpl. auto. }
  rewrite (init_file _ _ _ _ _ _ Hm Hh Hp Hl).
  destruct (call_outcome klass p (effective_kwargs a)) as [[h|r]|e];
    simpl; rewrite ?Hh; repeat split; eauto.
Qed.

Lemma init_returns_sets_flags p cls a w self w1 :
  __init__ p cls a w = (Return self, w1) →
  level (exporter_logger w1) = DEBUG
  ∧ propagate (exporter_logger w1) = false
  ∧ handlers (exporter_logger w1) ≠ [].
Proof.
  intros H.
  destruct (mkdir_parent p) as [u|e] eqn:Hm.
  2:{ rewrite (init_mkdir_fails _ _ _ _ _ Hm) in H. discriminate. }
  destruct (decide (handlers (exporter_logger w) = [])) as [Hh|Hh].
  2:{ rewrite (init_keeps_handlers _ _ _ _ _ Hm Hh) in H.
      injection H as <- <-. simpl. auto. }
  destruct (path_eq_str p "stdout") eqn:Hp.
  { rewrite (init_stdout _ _ _ _ _ Hm Hh Hp) in H. injection H as <- <-.
    simpl. rewrite Hh. repeat split; discriminate. }
  destruct (locate cls) as [klass|e] eqn:Hl.
  2:{ rewrite (init_locate_fails _ _ _ _ _ _ Hm Hh Hp Hl) in H. discriminate. }
  rewrite (init_file _ _ _ _ _ _ Hm Hh Hp Hl) in H.
  destruct (call_outcome klass p (effective_kwargs a)) as [[h|r]|e];
    try discriminate.
  injection H as <- <-. simpl. rewrite Hh. repeat split; discriminate.
Qed.
End ConstructorProperties.

Section WriteFrame.
Context {env : Environment}.

Lemma wrote_refl w : wrote w w [].
Proof. unfold wrote. rewrite app_nil_r. auto. Qed.

Lemma wrote_trans w1 w2 w3 evs1 evs2 :
  wrote w1 w2 evs1 → wrote w2 w3 evs2 → wrote w1 w3 (evs1 ++ evs2).
Proof.
  intros (A1 & B1 & C1 & D1) (A2 & B2 & C2 & D2). unfold wrote.
  rewrite A2, B2, C2, D2, D1, app_assoc. auto.
Qed.

Lemma Handler_emit_wrote h line w :
  ∃ ev, wrote w (snd (Handler_emit h line w)) [ev]
        ∧ event_target ev = h_target h.
Proof.
  unfold Handler_emit.
  destruct (sink_faults w) as [|[e|] rest]; simpl;
    eexists; (split; [unfold wrote; simpl; eauto | reflexivity]).
Qed.

Lemma call_handlers_wrote hs lv line w :
  ∃ evs, wrote w (snd (call_handlers hs lv line w)) evs
         ∧ (length evs <= length hs)%nat
         ∧ Forall (fun ev => ∃ h, h ∈ hs ∧ event_target ev = h_target h) evs.
Proof.
  revert w. induction hs as [|h hs IH]; intros w; simpl.
  - exists []. split; [apply wrote_refl|]. split; [simpl; lia | constructor].
  - unfold bind.
    assert (Hlift : ∀ evs' : list sink_event,
               Forall (fun ev => ∃ h0, h0 ∈ hs
                                       ∧ event_target ev = h_target h0) evs' →
               Forall (fun ev => ∃ h0, h0 ∈ h :: hs
                                       ∧ event_target ev = h_target h0) evs').
    { intros evs' HF. eapply Forall_impl; [exact HF|].
      intros ev (h0 & Hin & Ht). exists h0. split; [right; exact Hin | exact Ht]. }
    destruct (h_level h <=? lv).
    + destruct (Handler_emit_wrote h line w) as (ev & Hw & Ht).
      destruct (Handler_emit h line w) as [[[]|e] w1] eqn:He; simpl in *.
      * destruct (IH w1) as (evs & Hw' & Hlen & HF).
        exists ([ev] ++ evs). split; [eapply wrote_trans; eauto|].
        split; [simpl; lia|].
        constructor; [exists h; split; [left | exact Ht] | apply Hlift, HF].
      * exists [ev]. split; [exact Hw|]. split; [simpl; lia|].
        constructor; [exists h; split; [left | exact Ht] | constructor].
    + unfold ret. destruct (IH w) as (evs & Hw' & Hlen & HF).
      exists evs. split; [exact Hw'|]. split; [lia | apply Hlift, HF].
Qed.

(** An [info] call writes and does nothing else; without propagation it
    hands the line to the logger's own handlers, once each at most. *)
Lemma Logger_callHandlers_wrote line w :
  ∃ evs, wrote w (snd (Logger_callHandlers INFO line w)) evs
         ∧ (propagate (exporter_logger w) = false →
            (length evs <= length (handlers (exporter_logger w)))%nat
            ∧ Forall (fun ev => ∃ h, h ∈ handlers (exporter_logger w)
                                     ∧ event_target ev = h_target h) evs).
Proof.
  unfold Logger_callHandlers, bind.
  destruct (call_handlers_wrote (handlers (exporter_logger w)) INFO line w)
    as (evs & Hw & Hlen & HF).
  destruct (call_handlers (handlers (exporter_logger w)) INFO line w)
    as [[[]|e] w1]; simpl in *.
  2:{ exists evs. auto. }
  destruct (propagate (exporter_logger w)).
  - destruct (call_handlers_wrote (handlers (root_logger w)) INFO line w1)
      as (evs2 & Hw2 & _).
    destruct (call_handlers (handlers (root_logger w)) INFO line w1)
      as [[[]|e] w2]; simpl in *.
    + rewrite andb_false_r. unfold ret. simpl.
      exists (evs ++ evs2). split; [eapply wrote_trans; eauto | discriminate].
    + exists (evs ++ evs2). split; [eapply wrote_trans; eauto | discriminate].
  - rewrite andb_false_r. unfold ret. simpl. exists evs. auto.
Qed.

Lemma Logger_info_wrote line w :
  ∃ evs, wrote w (snd (Logger_info line w)) evs
         ∧ (propagate (exporter_logger w) = false →
            (length evs <= length (handlers (exporter_logger w)))%nat
            ∧ Forall (fun ev => ∃ h, h ∈ handlers (exporter_logger w)
                                     ∧ event_target ev = h_target h) evs).
Proof.
  unfold Logger_info, bind, Logger_getEffectiveLevel.
  match goal with |- context [if ?c then _ else _] => destruct c end.
  - apply Logger_callHandlers_wrote.
  - exists []. split; [apply wrote_refl|].
    intros _. split; [simpl; lia | constructor].
Qed.

Lemma add_warning_wrote c w : wrote w (add_warning c w) [].
Proof. unfold wrote. simpl. rewrite app_nil_r. auto. Qed.

(** [export] writes, perhaps warns, and leaves loggers and handlers alone. *)
Lemma export_wrote self batch w :
  ∃ evs, wrote w (snd (export self batch w)) evs
         ∧ (propagate (exporter_logger w) = false →
            (length evs <= length (handlers (exporter_logger w)))%nat
            ∧ Forall (fun ev => ∃ h, h ∈ handlers (exporter_logger w)
                                     ∧ event_target ev = h_target h) evs).
Proof.
  destruct (fst (encoding_stage self batch w)) as [payload|e] eqn:Henc.
  2:{ rewrite (export_encoding_error _ _ _ _ Henc). simpl.
      exists []. split; [apply wrote_refl|].
      intros _. split; [simpl; lia | constructor]. }
  rewrite (export_run _ _ _ _ Henc). unfold try_except_Exception.
  destruct (Logger_info_wrote payload w) as (evs & Hw & Hrest).
  destruct (Logger_info payload w) as [[[]|e] w1]; simpl in *.
  - exists evs. auto.
  - destruct (is_Exception e); simpl.
    + exists evs. split; [|exact Hrest].
      rewrite <- (app_nil_r evs).
      eapply wrote_trans; [exact Hw | apply add_warning_wrote].
    + exists evs. auto.
Qed.
End WriteFrame.

Section Invariants.
Context {env : Environment}.





Lemma run_call_ready c w h :
  ready w h →
  ready (snd (run_call c w)) h
  ∧ handler_calls (snd (run_call c w)) = handler_calls w.
Proof.
  intros [Hl Hh].
  destruct c as [p cls a|self batch|self]; simpl.
  - destruct (mkdir_parent p) as [u|e] eqn:Hm.
    + assert (Hne : handlers (exporter_logger w) ≠ [])
        by (rewrite Hl; discriminate).
      rewrite (init_keeps_handlers _ _ _ _ _ Hm Hne). simpl.
      split; [|reflexivity]. split; [|exact Hh]. simpl. rewrite Hl. reflexivity.
    + rewrite (init_mkdir_fails _ _ _ _ _ Hm). simpl.
      split; [split; assumption | reflexivity].
  - destruct (export_wrote self batch w) as (evs & (A & B & C & D) & _).
    split; [|exact C]. split; [rewrite A; exact Hl | exact Hh].
  - split; [split; assumption | reflexivity].
Qed.

Lemma run_calls_cons c cs w :
  run_calls (c :: cs) w =
    (fst (run_call c w) :: fst (run_calls cs (snd (run_call c w))),
     snd (run_calls cs (snd (run_call c w)))).
Proof.
  simpl. destruct (run_call c w) as [r w1]. simpl.
  destruct (run_calls cs w1). reflexivity.
Qed.



Lemma run_calls_ready cs w h :
  ready w h →
  ready (snd (run_calls cs w)) h
  ∧ handler_calls (snd (run_calls cs w)) = handler_calls w.
Proof.
  revert w. induction cs as [|c cs IH]; intros w H; [auto|].
  rewrite run_calls_cons. simpl.
  destruct (run_call_ready c w h H) as [H1 H2].
  destruct (IH _ H1) as [H3 H4]. split; [exact H3 | congruence].
Qed.
End Invariants.

Section ConstructorClaims.
Context {env : Environment}.

Lemma init_file_calls p cls a w u klass :
  mkdir_parent p = Return u →
  handlers (exporter_logger w) = [] →
  path_eq_str p "stdout" = false →
  locate cls = Return klass →
  handler_calls (snd (__init__ p cls a w))
    = handler_calls w ++ [(klass, p, effective_kwargs a)].
Proof.
  intros Hm Hh Hp Hl. rewrite (init_file _ _ _ _ _ _ Hm Hh Hp Hl).
  destruct (call_outcome klass p (effective_kwargs a)) as [[h|r]|e];
    reflexivity.
Qed.

(** C8, amended. When [log_handler_cls] names something that is no
    subclass of the three handler classes, the constructor that reaches the
    file branch (directory made, logger without handler, path not the
    string [stdout], [locate] returned) raises nothing for it: it calls the
    located object with the path and the keyword arguments, and raises only
    what that call raises, or the [AttributeError] of [setFormatter] when
    the call returned no handler. When the call returns a handler the
    constructor succeeds and installs it. *)
Theorem invalid_handler_class_is_called p cls a w u klass :
  mkdir_parent p = Return u →
  handlers (exporter_logger w) = [] →
  path_eq_str p "stdout" = false →
  locate cls = Return klass →
  valid_handler_class klass = false →
  handler_calls (snd (__init__ p cls a w))
    = handler_calls w ++ [(klass, p, effective_kwargs a)]
  ∧ (∀ e, fst (__init__ p cls a w) = Raise e →
       call_outcome klass p (effective_kwargs a) = Raise e
       ∨ ∃ r, call_outcome klass p (effective_kwargs a) = Return (VObject r)
              ∧ e = no_setFormatter r)
  ∧ (∀ h, call_outcome klass p (effective_kwargs a) = Return (VHandler h) →
       __init__ p cls a w =
         (Return {| log_path := p |},
          install_handler (with_formatter h "%(message)s")
            (add_handler_call (klass, p, effective_kwargs a)
               (after_prelude p w)))).
Proof.
  intros Hm Hh Hp Hl _.
  split; [exact (init_file_calls _ _ _ _ _ _ Hm Hh Hp Hl)|].
  rewrite (init_file _ _ _ _ _ _ Hm Hh Hp Hl).
  destruct (call_outcome klass p (effective_kwargs a)) as [[h|r]|e];
    simpl; split.
  - discriminate.
  - intros h' [= ->]. reflexivity.
  - intros e [= <-]. right. eauto.
  - discriminate.
  - intros e' [= <-]. left. reflexivity.
  - discriminate.
Qed.

(** C9. The keyword arguments handed to the handler class are the
    argument itself when it is a dict, empty or not, and
    [maxBytes = 5242880], [backupCount = 5] for anything else, [None]
    included. *)
Theorem default_kwargs_substituted p cls a w u klass :
  mkdir_parent p = Return u →
  handlers (exporter_logger w) = [] →
  path_eq_str p "stdout" = false →
  locate cls = Return klass →
  handler_calls (snd (__init__ p cls a w))
    = handler_calls w
      ++ [(klass, p,
           match a with
           | ArgDict d => d
           | _ => {[ "maxBytes" := SInt 5242880; "backupCount" := SInt 5 ]}
           end)].
Proof.
  intros Hm Hh Hp Hl. rewrite (init_file_calls _ _ _ _ _ _ Hm Hh Hp Hl).
  destruct a; reflexivity.
Qed.

Lemma export_ready_trace self batch payload w h :
  fst (encoding_stage self batch w) = Return payload →
  ready w h →
  sink_trace (snd (export self batch w))
    = sink_trace w
      ++ [match sink_faults w with
          | Some e :: _ => EmitFailed h payload e
          | _ => Emitted h payload
          end].
Proof.
  intros Henc Hr. rewrite (export_run _ _ _ _ Henc).
  unfold try_except_Exception. rewrite (info_ready _ _ _ Hr).
  pose proof (Handler_emit_cases h payload w) as Hc.
  destruct (sink_faults w) as [|[e|] rest]; rewrite Hc; simpl;
    try reflexivity.
  destruct (is_Exception e); reflexivity.
Qed.

(** C6, amended. An exporter built with the string [stdout] while the
    shared logger has no handler installs a stream handler on standard
    output and calls no handler class. From then on, whatever calls are
    made, no handler class is ever called and every export hands its
    payload to that one handler: it is written to standard output, or the
    write to standard output fails. *)
Theorem stdout_exporter_writes_to_stdout cls a w self w1 :
  handlers (exporter_logger w) = [] →
  __init__ (PStr "stdout") cls a w = (Return self, w1) →
  exporter_logger w1
    = {| level := DEBUG; propagate := false; handlers := [stdout_handler] |}
  ∧ handler_calls w1 = handler_calls w
  ∧ ∀ cs self' batch payload,
      fst (encoding_stage self' batch (snd (run_calls cs w1))) = Return payload →
      handler_calls (snd (run_calls cs w1)) = handler_calls w
      ∧ sink_trace (snd (export self' batch (snd (run_calls cs w1))))
        = sink_trace (snd (run_calls cs w1))
          ++ [match sink_faults (snd (run_calls cs w1)) with
              | Some e :: _ => EmitFailed stdout_handler payload e
              | _ => Emitted stdout_handler payload
              end].
Proof.
  intros Hh Hinit.
  destruct (mkdir_parent (PStr "stdout")) as [u|e] eqn:Hm.
  2:{ rewrite (init_mkdir_fails _ _ _ _ _ Hm) in Hinit. discriminate. }
  rewrite (init_stdout _ _ _ _ _ Hm Hh eq_refl) in Hinit.
  injection Hinit as <- <-.
  assert (Hr : ready (install_handler stdout_handler
                        (after_prelude (PStr "stdout") w)) stdout_handler).
  { split; [simpl; rewrite Hh; reflexivity | vm_compute; discriminate]. }
  split; [exact (proj1 Hr)|]. split; [reflexivity|].
  intros cs self' batch payload Henc.
  destruct (run_calls_ready cs _ _ Hr) as [Hr' Hc].
  split; [exact Hc|]. exact (export_ready_trace _ _ _ _ _ Henc Hr').
Qed.

End ConstructorClaims.

Section ConstructorOrigins.
Context {env : Environment}.

(** Every exception of the constructor is one that [mkdir], [locate], the
    call of the located object or [setFormatter] raised: the constructor
    has no [raise] of its own. *)
Lemma init_raise_origin p cls a w e :
  fst (__init__ p cls a w) = Raise e →
  mkdir_parent p = Raise e
  ∨ locate cls = Raise e
  ∨ ∃ klass, locate cls = Return klass
             ∧ (call_outcome klass p (effective_kwargs a) = Raise e
                ∨ ∃ r, call_outcome klass p (effective_kwargs a)
                         = Return (VObject r)
                       ∧ e = no_setFormatter r).
Proof.
  intros H.
  destruct (mkdir_parent p) as [u|e'] eqn:Hm.
  2:{ rewrite (init_mkdir_fails _ _ _ _ _ Hm) in H. simpl in H.
      injection H as <-. left. reflexivity. }
  destruct (decide (handlers (exporter_logger w) = [])) as [Hh|Hh].
  2:{ rewrite (init_keeps_handlers _ _ _ _ _ Hm Hh) in H. discriminate. }
  destruct (path_eq_str p "stdout") eqn:Hp.
  { rewrite (init_stdout _ _ _ _ _ Hm Hh Hp) in H. discriminate. }
  destruct (locate cls) as [klass|e'] eqn:Hl.
  2:{ rewrite (init_locate_fails _ _ _ _ _ _ Hm Hh Hp Hl) in H. simpl in H.
      injection H as <-. right. left. reflexivity. }
  right. right. exists klass. split; [reflexivity|].
  rewrite (init_file _ _ _ _ _ _ Hm Hh Hp Hl) in H.
  destruct (call_outcome klass p (effective_kwargs a)) as [[h|r]|e'];
    simpl in H.
  - discriminate.
  - injection H as <-. right. eauto.
  - injection H as <-. left. reflexivity.
Qed.
End ConstructorOrigins.

Section ConstructorRuns.
Import Example ExampleRuns.
#[local] Existing Instance example_env.

(** [logging.FileHandler] is none of the three classes and is called all
    the same. *)
Lemma invalid_handler_class_is_called_witness :
  handler_calls (snd (__init__ service_log "logging.FileHandler" (ArgDict ∅) start))
    = handler_calls start
      ++ [(file_handler_class, service_log, effective_kwargs (ArgDict ∅))].
Proof.
  refine (proj1 (invalid_handler_class_is_called (env := example_env)
                   service_log "logging.FileHandler" (ArgDict ∅) start tt
                   file_handler_class _ _ _ _ _));
    vm_compute; reflexivity.
Defined.

Lemma default_kwargs_substituted_witness :
  handler_calls
    (snd (__init__ service_log "logging.handlers.RotatingFileHandler" ArgNone
            start))
    = handler_calls start
      ++ [(rotating_class, service_log,
           {[ "maxBytes" := SInt 5242880; "backupCount" := SInt 5 ]})].
Proof.
  refine (default_kwargs_substituted (env := example_env) service_log
            "logging.handlers.RotatingFileHandler" ArgNone start tt
            rotating_class _ _ _ _);
    vm_compute; reflexivity.
Defined.

(** C8 fails as stated, twice. With a handler on the shared logger the
    constructor, given a class name that names nothing, locates and calls
    nothing and returns. And [os.path.basename], no handler class either, is
    called and returns a string: the call has not failed, the constructor
    fails after it, in [setFormatter]. *)
Lemma invalid_class_not_always_invoked :
  locate "no.such.Handler" = Return LocNone
  ∧ valid_handler_class LocNone = false
  ∧ fst (__init__ service_log "no.such.Handler" ArgNone (file_world []))
    = Return file_exporter
  ∧ handler_calls
      (snd (__init__ service_log "no.such.Handler" ArgNone (file_world [])))
    = handler_calls (file_world [])
  ∧ locate "os.path.basename" = Return (LocOther "os.path.basename")
  ∧ valid_handler_class (LocOther "os.path.basename") = false
  ∧ call_outcome (LocOther "os.path.basename") service_log ∅
    = Return (VObject "'str'")
  ∧ fst (__init__ service_log "os.path.basename" (ArgDict ∅) start)
    = Raise (no_setFormatter "'str'").
Proof. vm_compute. repeat split. Qed.

(** C6 fails as stated: the process built a file exporter first. The
    exporter built with [stdout] installs nothing, and its payload goes to
    the rotating file handler of the first exporter, not to standard
    output. *)
Lemma stdout_exporter_writes_to_file :
  fst second_exporter_run = Return stdout_exporter
  ∧ handlers (exporter_logger (snd second_exporter_run)) = [rotating_handler]
  ∧ sink_trace (snd (export stdout_exporter [record1] (snd second_exporter_run)))
    = [Emitted rotating_handler payload1]
  ∧ h_target rotating_handler = ToFile (PStr "logs/otel/service.log").
Proof. vm_compute. repeat split. Qed.

Lemma stdout_exporter_writes_to_stdout_witness :
  exporter_logger (stdout_world [])
    = {| level := DEBUG; propagate := false; handlers := [stdout_handler] |}
  ∧ handler_calls (stdout_world []) = handler_calls start.
Proof.
  assert (H1 : handlers (exporter_logger start) = [])
    by (vm_compute; reflexivity).
  assert (H2 : __init__ (PStr "stdout") "logging.handlers.RotatingFileHandler"
                 ArgNone start = (Return stdout_exporter, stdout_world []))
    by (vm_compute; reflexivity).
  destruct (stdout_exporter_writes_to_stdout (env := example_env) _ _ _ _ _
              H1 H2) as (Hl & Hc & _).
  split; [exact Hl | exact Hc].
Defined.

End ConstructorRuns.

(** * Further properties of the exporter *)

Section ExportRunsInOrder.
Context {env : Environment}.

Lemma encoding_stage_payload self batch w :
  fst (encoding_stage self batch w) = json_payload batch.
Proof. rewrite encoding_stage_run. reflexivity. Qed.

(** One export on a logger with one handler, case by case. *)
Lemma export_ready_step self batch p w h :
  ready w h →
  json_payload batch = Return p →
  export self batch w =
    match sink_faults w with
    | Some e :: rest =>
        if is_Exception e
        then (Return tt,
              add_warning (mkWarning write_failed_format (log_path self) e)
                (sink_step (EmitFailed h p e) rest w))
        else (Raise e, sink_step (EmitFailed h p e) rest w)
    | None :: rest => (Return tt, sink_step (Emitted h p) rest w)
    | [] => (Return tt, sink_step (Emitted h p) [] w)
    end.
Proof.
  intros Hr Hp.
  assert (Henc : fst (encoding_stage self batch w) = Return p)
    by (rewrite encoding_stage_payload; exact Hp).
  rewrite (export_run _ _ _ _ Henc). unfold try_except_Exception.
  rewrite (info_ready _ _ _ Hr).
  pose proof (Handler_emit_cases h p w) as Hc.
  destruct (sink_faults w) as [|[e|] rest]; rewrite Hc; reflexivity.
Qed.

Lemma ready_after_export self batch w h :
  ready w h → ready (snd (export self batch w)) h.
Proof.
  intros Hr. exact (proj1 (run_call_ready (Export self batch) w h Hr)).
Qed.

Lemma export_payload_error self batch e w :
  json_payload batch = Raise e → export self batch w = (Raise e, w).
Proof.
  intros H. apply export_encoding_error.
  rewrite encoding_stage_payload. exact H.
Qed.


(** X2. [shutdown] closes nothing: an export after any number of
    [shutdown] calls does exactly what it does without them. *)
Theorem export_after_shutdown (n : nat) self batch w :
  (shutdown_times n self ;; export self batch)%py w = export self batch w.
Proof.
  unfold bind.
  assert (H : shutdown_times n self w = (Return tt, w)).
  { induction n as [|n IH]; [reflexivity|].
    simpl. unfold bind, shutdown, ret in *. exact IH. }
  rewrite H. reflexivity.
Qed.

(** X3. When the write does not raise, [export] returns normally having
    handed the payload to the handler exactly once; it logs no warning and
    changes nothing else. *)
Theorem export_writes_payload_once self batch p w h :
  ready w h →
  json_payload batch = Return p →
  head (sink_faults w) = None ∨ head (sink_faults w) = Some None →
  export self batch w
    = (Return tt, sink_step (Emitted h p) (tail (sink_faults w)) w).
Proof.
  intros Hr Hp Hf. rewrite (export_ready_step _ _ _ _ _ Hr Hp).
  destruct (sink_faults w) as [|[e|] rest]; simpl in *.
  - reflexivity.
  - destruct Hf as [Hf|Hf]; discriminate.
  - reflexivity.
Qed.

(** A run of exports by one exporter: what it appends to the sink trace
    and to the warnings. *)
Lemma exports_run self batches w h :
  ready w h →
  ∃ evs,
    sink_trace (snd (run_calls (map (Export self) batches) w))
      = sink_trace w ++ evs
    ∧ map event_line evs = payloads batches
    ∧ Forall (fun ev => event_handler ev = h) evs
    ∧ module_log (snd (run_calls (map (Export self) batches) w))
      = module_log w
        ++ map (mkWarning write_failed_format (log_path self))
             (flat_map caught_error evs).
Proof.
  revert w. induction batches as [|b bs IH]; intros w Hr.
  - exists []. simpl. rewrite !app_nil_r. auto.
  - simpl map. rewrite run_calls_cons. simpl snd.
    change (run_call (Export self b) w) with (export self b w).
    destruct (IH _ (ready_after_export self b w h Hr))
      as (evs & Ht & Hl & Hh & Hm).
    rewrite Ht, Hm. unfold payloads. simpl flat_map.
    fold (payloads bs).
    destruct (json_payload b) as [p|e] eqn:Hp.
    + rewrite (export_ready_step _ _ _ _ _ Hr Hp).
      destruct (sink_faults w) as [|[e|] rest].
      * exists (Emitted h p :: evs). simpl.
        rewrite <- !app_assoc, Hl. simpl. repeat split; auto.
      * destruct (is_Exception e) eqn:He.
        -- exists (EmitFailed h p e :: evs). simpl. rewrite He.
           rewrite <- !app_assoc, Hl. simpl. repeat split; auto.
        -- exists (EmitFailed h p e :: evs). simpl. rewrite He.
           rewrite <- !app_assoc, Hl. simpl. repeat split; auto.
      * exists (Emitted h p :: evs). simpl.
        rewrite <- !app_assoc, Hl. simpl. repeat split; auto.
    + rewrite (export_payload_error _ _ _ _ Hp).
      exists evs. auto.
Qed.
End ExportRunsInOrder.

Section ExportRunClaims.
Context {env : Environment}.

(** X4. Exports made one after the other by an exporter whose logger has
    one handler reach that handler in call order, one line per batch that
    encodes, the line being the batch's payload; this holds whatever writes
    fail on the way, so a failed write never costs a later batch its
    turn. *)
Theorem exports_keep_order self batches w h :
  ready w h →
  ∃ evs,
    sink_trace (snd (run_calls (map (Export self) batches) w))
      = sink_trace w ++ evs
    ∧ map event_line evs = payloads batches
    ∧ Forall (fun ev => event_handler ev = h) evs.
Proof.
  intros Hr. destruct (exports_run self batches w h Hr)
    as (evs & Ht & Hl & Hh & _).
  exists evs. auto.
Qed.

(** X5. Over such a run the warnings logged are, in order, one for each
    failed write whose error is an instance of [Exception], each naming the
    exporter's log path and carrying that error; successful writes and
    encoder failures log nothing. *)
Theorem warnings_match_caught_failures self batches w h :
  ready w h →
  ∃ evs,
    sink_trace (snd (run_calls (map (Export self) batches) w))
      = sink_trace w ++ evs
    ∧ module_log (snd (run_calls (map (Export self) batches) w))
      = module_log w
        ++ map (mkWarning write_failed_format (log_path self))
             (flat_map caught_error evs).
Proof.
  intros Hr. destruct (exports_run self batches w h Hr)
    as (evs & Ht & _ & _ & Hm).
  exists evs. auto.
Qed.

End ExportRunClaims.

Section ConstructorFailures.
Context {env : Environment}.

Lemma init_raise_keeps_handlers p cls a w e :
  fst (__init__ p cls a w) = Raise e →
  handlers (exporter_logger (snd (__init__ p cls a w)))
    = handlers (exporter_logger w)
  ∧ root_logger (snd (__init__ p cls a w)) = root_logger w
  ∧ sink_trace (snd (__init__ p cls a w)) = sink_trace w
  ∧ module_log (snd (__init__ p cls a w)) = module_log w.
Proof.
  intros H.
  destruct (mkdir_parent p) as [u|e'] eqn:Hm.
  2:{ rewrite (init_mkdir_fails _ _ _ _ _ Hm). auto. }
  destruct (decide (handlers (exporter_logger w) = [])) as [Hh|Hh].
  2:{ rewrite (init_keeps_handlers _ _ _ _ _ Hm Hh) in H. discriminate. }
  destruct (path_eq_str p "stdout") eqn:Hp.
  { rewrite (init_stdout _ _ _ _ _ Hm Hh Hp) in H. discriminate. }
  destruct (locate cls) as [klass|e'] eqn:Hl.
  2:{ rewrite (init_locate_fails _ _ _ _ _ _ Hm Hh Hp Hl). simpl. auto. }
  rewrite (init_file _ _ _ _ _ _ Hm Hh Hp Hl) in *.
  destruct (call_outcome klass p (effective_kwargs a)) as [[h|r]|e'];
    simpl in *; [discriminate | auto | auto].
Qed.


(** X8. Once the shared logger has a handler the constructor looks at
    neither [log_handler_cls] nor [log_handler_kwargs]: any two calls with
    the same path do the same, no handler class is located or called, and
    the only exception possible is the one of [mkdir]. A class name that
    names nothing goes unnoticed. *)
Theorem constructor_ignores_class_once_installed p cls1 a1 cls2 a2 w :
  handlers (exporter_logger w) ≠ [] →
  __init__ p cls1 a1 w = __init__ p cls2 a2 w
  ∧ handler_calls (snd (__init__ p cls1 a1 w)) = handler_calls w
  ∧ (∀ e, fst (__init__ p cls1 a1 w) = Raise e → mkdir_parent p = Raise e).
Proof.
  intros Hh.
  destruct (mkdir_parent p) as [u|e] eqn:Hm.
  - rewrite !(init_keeps_handlers _ _ _ _ _ Hm Hh). simpl.
    split; [reflexivity|]. split; [reflexivity | discriminate].
  - rewrite !(init_mkdir_fails _ _ _ _ _ Hm). simpl.
    split; [reflexivity|]. split; [reflexivity | congruence].
Qed.

(** X9. A [Path] object never compares equal to the string [stdout]: with
    [log_path = Path("stdout")] the constructor takes the file branch and
    calls the handler class on that path. *)
Theorem Path_stdout_is_a_file_path s cls a w u klass :
  mkdir_parent (PPath s) = Return u →
  handlers (exporter_logger w) = [] →
  locate cls = Return klass →
  handler_calls (snd (__init__ (PPath s) cls a w))
    = handler_calls w ++ [(klass, PPath s, effective_kwargs a)].
Proof.
  intros Hm Hh Hl.
  exact (init_file_calls (PPath s) cls a w u klass Hm Hh eq_refl Hl).
Qed.

End ConstructorFailures.

(** * Properties of [setup_logging] *)

Section SetupProperties.
Context {env : Environment}.

(** X11. The attribute dict handed to [Resource.create] has fourteen
    entries for the fifteen items written: [key8] is written twice, the
    second time wins, and [value8] is bound to no key. *)
Theorem resource_attributes_drop_value8 :
  length resource_items = 15%nat
  ∧ size resource_attributes = 14%nat
  ∧ resource_attributes !! "key8" = Some "value9"
  ∧ map_Forall (fun _ v => v ≠ "value8") resource_attributes.
Proof.
  split; [reflexivity|]. split; [vm_compute; reflexivity|].
  split; [vm_compute; reflexivity|].
  apply (bool_decide_unpack _). vm_compute. exact I.
Qed.

Lemma setup_logging_world p ps :
  world (snd (setup_logging p ps))
    = match __init__ p "logging.handlers.WatchedFileHandler"
              (ArgDict {[ "mode" := SStr "a" ]}) (world ps) with
      | (Raise _, w1) => w1
      | (Return _, w1) =>
          set_root_logger
            {| level := INFO; propagate := propagate (root_logger w1);
               handlers := handlers (root_logger w1) |} w1
      end.
Proof.
  unfold setup_logging.
  destruct (__init__ p "logging.handlers.WatchedFileHandler"
              (ArgDict {[ "mode" := SStr "a" ]}) (world ps)) as [[x|e] w1];
    reflexivity.
Qed.

Lemma setup_logging_result p ps :
  fst (setup_logging p ps)
    = match fst (__init__ p "logging.handlers.WatchedFileHandler"
                   (ArgDict {[ "mode" := SStr "a" ]}) (world ps)) with
      | Return _ => Return tt
      | Raise e => Raise e
      end.
Proof.
  unfold setup_logging.
  destruct (__init__ p "logging.handlers.WatchedFileHandler"
              (ArgDict {[ "mode" := SStr "a" ]}) (world ps)) as [[x|e] w1];
    reflexivity.
Qed.

(** X12. [setup_logging] on a logger without handlers and a path other
    than the string [stdout] calls the class found under
    [logging.handlers.WatchedFileHandler] with the path and with
    [mode = "a"] and nothing else: the default [maxBytes] and [backupCount]
    of the module are not passed. *)
Theorem setup_logging_passes_mode_only p ps u klass :
  mkdir_parent p = Return u →
  handlers (exporter_logger (world ps)) = [] →
  path_eq_str p "stdout" = false →
  locate "logging.handlers.WatchedFileHandler" = Return klass →
  handler_calls (world (snd (setup_logging p ps)))
    = handler_calls (world ps) ++ [(klass, p, {[ "mode" := SStr "a" ]})].
Proof.
  intros Hm Hh Hp Hl. rewrite setup_logging_world.
  pose proof (init_file_calls p "logging.handlers.WatchedFileHandler"
                (ArgDict {[ "mode" := SStr "a" ]}) (world ps) u klass
                Hm Hh Hp Hl) as Hc.
  destruct (__init__ p "logging.handlers.WatchedFileHandler"
              (ArgDict {[ "mode" := SStr "a" ]}) (world ps)) as [[x|e] w1];
    exact Hc.
Qed.

(** With SDK calls that all return, this is [setup_logging]. *)
Lemma setup_logging_with_all_return p ps :
  setup_logging_with sdk_all_return p ps = setup_logging p ps.
Proof.
  unfold setup_logging_with, setup_logging. simpl.
  destruct (__init__ p "logging.handlers.WatchedFileHandler"
              (ArgDict {[ "mode" := SStr "a" ]}) (world ps)) as [[x|e] w1];
    reflexivity.
Qed.

(** X13. When [setup_logging] raises, at whatever statement, be it an SDK
    call or the exporter's constructor, the root logger is untouched: no
    SDK handler was added and its level and handlers are as before. The
    shared logger of the exporter has its handlers as before too, unless the
    failure came after the constructor had returned and installed its
    handler, which then stays. *)
Theorem failed_setup_leaves_root_logger sdk p ps e :
  fst (setup_logging_with sdk p ps) = Raise e →
  root_sdk_handlers (snd (setup_logging_with sdk p ps)) = root_sdk_handlers ps
  ∧ root_logger (world (snd (setup_logging_with sdk p ps)))
    = root_logger (world ps)
  ∧ (handlers (exporter_logger (world (snd (setup_logging_with sdk p ps))))
       = handlers (exporter_logger (world ps))
     ∨ (handlers (exporter_logger (world ps)) = []
        ∧ (∃ h, handlers (exporter_logger
                            (world (snd (setup_logging_with sdk p ps)))) = [h])
        ∧ ∃ x, fst (__init__ p "logging.handlers.WatchedFileHandler"
                      (ArgDict {[ "mode" := SStr "a" ]}) (world ps))
               = Return x)).
Proof.
  intros H.
  pose proof (init_raise_keeps_handlers p
                "logging.handlers.WatchedFileHandler"
                (ArgDict {[ "mode" := SStr "a" ]}) (world ps)) as Hk.
  pose proof (init_logger_cases p "logging.handlers.WatchedFileHandler"
                (ArgDict {[ "mode" := SStr "a" ]}) (world ps)) as Hc.
  unfold setup_logging_with in *.
  destruct (sdk_resource_create sdk); [simpl; auto|].
  destruct (sdk_logger_provider sdk); [simpl; auto|].
  destruct (__init__ p "logging.handlers.WatchedFileHandler"
              (ArgDict {[ "mode" := SStr "a" ]}) (world ps)) as [[x|e'] w1];
    simpl in *.
  - assert (Hbuilt :
      root_logger w1 = root_logger (world ps)
      ∧ (handlers (exporter_logger w1) = handlers (exporter_logger (world ps))
         ∨ (handlers (exporter_logger (world ps)) = []
            ∧ (∃ h, handlers (exporter_logger w1) = [h])
            ∧ ∃ x0 : OTLPJsonFileExporter,
                @Return OTLPJsonFileExporter x = Return x0))).
    { destruct Hc as [(_ & e0 & He0)|(_ & _ & Hroot & Hh)]; [discriminate|].
      split; [exact Hroot|].
      destruct Hh as [Hh|(Hh & h & _ & Hh')]; [left; exact Hh|].
      right. split; [exact Hh|]. split; [exists h; exact Hh' | eauto]. }
    destruct Hbuilt as [Hroot Hh].
    destruct (sdk_batch_processor sdk); [simpl; auto|].
    destruct (sdk_add_processor sdk); [simpl; auto|].
    destruct (sdk_logging_handler sdk); [simpl; auto|].
    discriminate.
  - destruct (Hk e' eq_refl) as (A & B & _). auto.
Qed.

Lemma setup_logging_step p ps :
  length (root_sdk_handlers (snd (setup_logging p ps)))
    = (length (root_sdk_handlers ps)
       + (if returned (fst (setup_logging p ps)) then 1 else 0))%nat
  ∧ (handlers (exporter_logger (world ps)) ≠ [] →
     handlers (exporter_logger (world (snd (setup_logging p ps))))
       = handlers (exporter_logger (world ps)))
  ∧ (returned (fst (setup_logging p ps)) = true →
     level (root_logger (world (snd (setup_logging p ps)))) = INFO
     ∧ handlers (exporter_logger (world (snd (setup_logging p ps)))) ≠ []).
Proof.
  pose proof (init_logger_cases p "logging.handlers.WatchedFileHandler"
                (ArgDict {[ "mode" := SStr "a" ]}) (world ps)) as Hc.
  pose proof (init_returns_sets_flags p "logging.handlers.WatchedFileHandler"
                (ArgDict {[ "mode" := SStr "a" ]}) (world ps)) as Hr.
  unfold setup_logging.
  destruct (__init__ p "logging.handlers.WatchedFileHandler"
              (ArgDict {[ "mode" := SStr "a" ]}) (world ps)) as [[x|e] w1];
    simpl in *.
  - split; [rewrite length_app; simpl; lia|]. split.
    + intros Hne. destruct Hc as [(-> & _)|(_ & _ & _ & [Hh|(Hh & _)])];
        [reflexivity | exact Hh | contradiction].
    + intros _. split; [reflexivity|].
      destruct (Hr x w1 eq_refl) as (_ & _ & Hne). exact Hne.
  - split; [lia|]. split; [|discriminate].
    intros Hne. destruct Hc as [(-> & _)|(_ & _ & _ & [Hh|(Hh & _)])];
      [reflexivity | exact Hh | contradiction].
Qed.

Lemma run_setups_cons p paths ps :
  run_setups (p :: paths) ps =
    (fst (setup_logging p ps) :: fst (run_setups paths (snd (setup_logging p ps))),
     snd (run_setups paths (snd (setup_logging p ps)))).
Proof.
  simpl. destruct (setup_logging p ps) as [r ps1]. simpl.
  destruct (run_setups paths ps1). reflexivity.
Qed.

(** X14. [setup_logging] is not idempotent on the root logger and is on
    the sink: over any run of calls the root logger gains one SDK handler
    per call that returns, while a shared logger that has a handler keeps
    exactly the handlers it had, whatever paths the later calls name. *)
Theorem repeated_setups_stack_root_handlers paths ps :
  length (root_sdk_handlers (snd (run_setups paths ps)))
    = (length (root_sdk_handlers ps)
       + returns_count (fst (run_setups paths ps)))%nat
  ∧ (handlers (exporter_logger (world ps)) ≠ [] →
     handlers (exporter_logger (world (snd (run_setups paths ps))))
       = handlers (exporter_logger (world ps))).
Proof.
  revert ps. induction paths as [|p paths IH]; intros ps.
  - simpl. unfold returns_count. simpl. split; [lia | reflexivity].
  - rewrite run_setups_cons. simpl fst. simpl snd.
    destruct (setup_logging_step p ps) as (Hlen & Hkeep & _).
    destruct (IH (snd (setup_logging p ps))) as (IHlen & IHkeep).
    split.
    + rewrite IHlen, Hlen. unfold returns_count. simpl.
      destruct (returned (fst (setup_logging p ps))); simpl; lia.
    + intros Hne. rewrite IHkeep; [exact (Hkeep Hne)|].
      rewrite (Hkeep Hne). exact Hne.
Qed.
End SetupProperties.

(** * Properties of the demo loop *)

Section RequestIds.

Lemma uint_of_string_zeros k s :
  NilEmpty.uint_of_string (zeros k +:+ s)
    = option_map (Nat.iter k Decimal.D0) (NilEmpty.uint_of_string s).
Proof.
  induction k as [|k IH].
  - change (zeros 0 +:+ s) with s.
    destruct (NilEmpty.uint_of_string s); reflexivity.
  - change (zeros (S k) +:+ s)
      with (String (Ascii.ascii_of_nat 48) (zeros k +:+ s)).
    simpl. rewrite IH. destruct (NilEmpty.uint_of_string s); reflexivity.
Qed.

Lemma of_uint_iter_D0 k d :
  Nat.of_uint (Nat.iter k Decimal.D0 d) = Nat.of_uint d.
Proof.
  induction k as [|k IH]; [reflexivity|].
  simpl. rewrite <- IH.
  rewrite <- (Unsigned.of_uint_norm (Decimal.D0 (Nat.iter k Decimal.D0 d))).
  rewrite <- (Unsigned.of_uint_norm (Nat.iter k Decimal.D0 d)).
  reflexivity.
Qed.

(** Reading the digits of [format_06d i] back gives [i]. *)
Lemma format_06d_read_back i :
  option_map Nat.of_uint (NilEmpty.uint_of_string (format_06d i)) = Some i.
Proof.
  unfold format_06d, str_of_nat. rewrite uint_of_string_zeros.
  rewrite NilEmpty.usu. simpl. rewrite of_uint_iter_D0.
  rewrite Unsigned.of_to. reflexivity.
Qed.

Lemma request_id_inj i j : request_id i = request_id j → i = j.
Proof.
  unfold request_id. intros H. apply (inj (String.app "req-")) in H.
  pose proof (format_06d_read_back i) as Hi.
  pose proof (format_06d_read_back j) as Hj.
  rewrite H in Hi. congruence.
Qed.

(** X15. Request ids tell the turns of the loop apart: two turn numbers
    with the same [f"req-{i:06d}"] are the same number, also beyond six
    digits, where the format widens instead of cutting. *)
Theorem request_ids_distinct i j : request_id i = request_id j ↔ i = j.
Proof. split; [apply request_id_inj | intros ->; reflexivity]. Qed.
End RequestIds.

Section RequestIdWidth.
Local Open Scope nat_scope.

Lemma string_length_app s t :
  String.length (s +:+ t) = (String.length s + String.length t)%nat.
Proof.
  induction s as [|a s IH]; [reflexivity|].
  change (String a s +:+ t) with (String a (s +:+ t)).
  simpl. rewrite IH. reflexivity.
Qed.

Lemma zeros_length k : String.length (zeros k) = k.
Proof. induction k as [|k IH]; simpl; congruence. Qed.

Lemma string_of_uint_length d :
  String.length (NilEmpty.string_of_uint d) = Unsigned.usize d.
Proof. induction d; simpl; congruence. Qed.

Lemma of_uint_hd_tl d :
  d ≠ Decimal.Nil →
  Nat.of_uint d
    = (Nat.of_uint (Unsigned.tl d)
       + Unsigned.hd d * 10 ^ Unsigned.usize (Unsigned.tl d))%nat.
Proof.
  intros Hd. destruct d; [contradiction|..];
    unfold Nat.of_uint; simpl Nat.of_uint_acc;
    rewrite ?Nat.tail_mul_spec, !Unsigned.of_uint_acc_spec; simpl; lia.
Qed.

Lemma hd_le_9 d : (Unsigned.hd d <= 9)%nat.
Proof. destruct d; simpl; lia. Qed.

Lemma usize_tl d :
  d ≠ Decimal.Nil → Unsigned.usize d = S (Unsigned.usize (Unsigned.tl d)).
Proof. destruct d; [contradiction|..]; reflexivity. Qed.

Lemma of_uint_upper d : (Nat.of_uint d < 10 ^ Unsigned.usize d)%nat.
Proof.
  induction d;
    try (rewrite of_uint_hd_tl by done;
         simpl Unsigned.tl; simpl Unsigned.hd; simpl Unsigned.usize;
         rewrite Nat.pow_succ_r'; lia).
  unfold Nat.of_uint. simpl. lia.
Qed.

Lemma of_uint_lower d :
  (1 <= Unsigned.hd d)%nat →
  (10 ^ (Unsigned.usize d - 1) <= Nat.of_uint d)%nat.
Proof.
  intros Hh.
  assert (Hd : d ≠ Decimal.Nil) by (intros ->; simpl in Hh; lia).
  rewrite (of_uint_hd_tl d Hd), (usize_tl d Hd). simpl.
  rewrite Nat.sub_0_r. nia.
Qed.

Lemma nzhead_hd d :
  Decimal.nzhead d ≠ Decimal.Nil → (1 <= Unsigned.hd (Decimal.nzhead d))%nat.
Proof. induction d; simpl; intros H; try lia; auto; congruence. Qed.

(** [str(i)] has no leading zero, bar [str(0)]. *)
Lemma to_uint_hd i : i ≠ O → (1 <= Unsigned.hd (Nat.to_uint i))%nat.
Proof.
  intros Hi.
  pose proof (Unsigned.to_of (Nat.to_uint i)) as H.
  rewrite Unsigned.of_to in H. rewrite H. unfold Decimal.unorm.
  pose proof (nzhead_hd (Nat.to_uint i)) as Hn.
  destruct (Decimal.nzhead (Nat.to_uint i)) eqn:Hz;
    try (apply Hn; discriminate).
  exfalso. apply Hi. rewrite <- (Unsigned.of_to i), H.
  unfold Decimal.unorm. rewrite Hz. reflexivity.
Qed.

Lemma str_of_nat_length i :
  (1 <= String.length (str_of_nat i))%nat
  ∧ (String.length (str_of_nat i) <= 6 ↔ i < 10 ^ 6)%nat.
Proof.
  unfold str_of_nat. rewrite string_of_uint_length.
  pose proof (of_uint_upper (Nat.to_uint i)) as Hu.
  rewrite Unsigned.of_to in Hu.
  destruct (Nat.eq_dec i 0) as [->|Hi].
  { change (Unsigned.usize (Nat.to_uint 0)) with 1.
    split; [lia|]. split; intros _; [|lia].
    apply Nat.neq_0_lt_0, Nat.pow_nonzero. lia. }
  pose proof (of_uint_lower _ (to_uint_hd i Hi)) as Hl.
  rewrite Unsigned.of_to in Hl.
  assert (Hpos : (1 <= Unsigned.usize (Nat.to_uint i))%nat).
  { destruct (Unsigned.usize (Nat.to_uint i)) eqn:E; [|lia].
    simpl in Hu. lia. }
  split; [exact Hpos|]. split.
  - intros Hle. eapply Nat.lt_le_trans; [exact Hu|].
    apply Nat.pow_le_mono_r; lia.
  - intros Hlt.
    assert (H : (10 ^ (Unsigned.usize (Nat.to_uint i) - 1) < 10 ^ 6)%nat)
      by lia.
    apply Nat.pow_lt_mono_r_iff in H; lia.
Qed.

(** X16. A request id is [req-] followed by at least six digits: it has
    exactly ten characters for the turns below one million and more from
    there on. *)
Theorem request_id_width i :
  (10 <= String.length (request_id i))%nat
  ∧ (String.length (request_id i) = 10 ↔ i < 10 ^ 6)%nat.
Proof.
  unfold request_id, format_06d. rewrite !string_length_app, zeros_length.
  destruct (str_of_nat_length i) as [H1 H6].
  change (String.length "req-") with 4%nat.
  split; [lia|]. split; intros H.
  - apply H6. lia.
  - apply H6 in H. lia.
Qed.
End RequestIdWidth.

Section DemoLoop.

Lemma turn_call_request_id i d :
  call_request_id (turn_call i d) = Some (SStr (request_id i)).
Proof.
  unfold call_request_id, turn_call, dict_display.
  destruct (d_message d) as [lvl msg]. simpl.
  repeat case_bool_decide; simpl; by simplify_map_eq.
Qed.

(** X17. For each pair of [MESSAGES] the loop logs the pair's text at the
    pair's level: [info] at INFO, [warning] at WARNING, and [error], the
    only level left to the final [else], at ERROR. Every call carries
    [request_id], [user_id] and [latency_ms]; [error_code] is there on the
    error call and on no other. *)
Theorem turn_call_matches_message i d :
  d_message d ∈ MESSAGES →
  al_msg (turn_call i d) = snd (d_message d)
  ∧ al_level (turn_call i d)
    = (if bool_decide (fst (d_message d) = "info") then INFO
       else if bool_decide (fst (d_message d) = "warning") then WARNING
       else LEVEL_ERROR)
  ∧ (al_level (turn_call i d) = LEVEL_ERROR ↔ fst (d_message d) = "error")
  ∧ al_extra (turn_call i d) !! "request_id" = Some (SStr (request_id i))
  ∧ al_extra (turn_call i d) !! "user_id" = Some (SInt (d_user_id d))
  ∧ al_extra (turn_call i d) !! "latency_ms" = Some (SInt (d_latency_ms d))
  ∧ al_extra (turn_call i d) !! "error_code"
    = (if bool_decide (fst (d_message d) = "error")
       then Some (SInt (d_error_code d)) else None).
Proof.
  intros Hin. unfold turn_call, dict_display.
  destruct (d_message d) as [lvl msg]. simpl.
  unfold MESSAGES in Hin.
  repeat (apply elem_of_cons in Hin as [Hin|Hin]);
    [..|apply elem_of_nil in Hin; contradiction];
    injection Hin as -> ->; vm_compute bool_decide; simpl;
    (repeat split; try discriminate; try reflexivity; by simplify_map_eq).
Qed.

Lemma main_loop_log i turns log :
  ∃ n,
    (n <= length turns)%nat
    ∧ map call_request_id (snd (main_loop i turns log))
      = map call_request_id log
        ++ map (fun k => Some (SStr (request_id k))) (seq i n)
    ∧ (first_interruption turns = None → n = length turns).
Proof.
  revert i log. induction turns as [|t turns IH]; intros i log; simpl.
  - exists 0%nat. simpl. rewrite app_nil_r. auto.
  - destruct (t_interruption t) as [|e|e]; simpl.
    + destruct (IH (S i) (log ++ [turn_call i (t_draws t)]))
        as (n & Hn & Hm & Hf).
      exists (S n). split; [lia|]. split.
      * rewrite Hm, map_app. simpl. rewrite turn_call_request_id.
        rewrite <- app_assoc. reflexivity.
      * intros H. rewrite (Hf H). reflexivity.
    + exists 0%nat. simpl. rewrite app_nil_r.
      split; [lia|]. split; [reflexivity | discriminate].
    + exists 1%nat. simpl. rewrite map_app. simpl.
      rewrite turn_call_request_id.
      split; [lia|]. split; [reflexivity | discriminate].
Qed.

Lemma main_loop_outcome i turns log :
  fst (main_loop i turns log)
    = match first_interruption turns with
      | None => StillLooping
      | Some e => loop_exit e
      end.
Proof.
  revert i log. induction turns as [|t turns IH]; intros i log; simpl.
  - reflexivity.
  - destruct (t_interruption t); simpl; [apply IH | reflexivity..].
Qed.

(** X18. Whatever turns the loop takes, the calls it logs carry the request
    ids of the turn numbers 1, 2, 3, ... in order, with no gap, and no two
    calls of a run share a request id. *)
Theorem main_request_ids_count_up turns :
  map call_request_id (snd (main turns))
    = map (fun k => Some (SStr (request_id k)))
        (seq 1 (length (snd (main turns))))
  ∧ NoDup (map call_request_id (snd (main turns))).
Proof.
  unfold main.
  destruct (main_loop_log 1 turns []) as (n & _ & Hm & _).
  simpl in Hm.
  assert (Hlen : length (snd (main_loop 1 turns [])) = n).
  { rewrite <- (length_map call_request_id), Hm, length_map, length_seq.
    reflexivity. }
  rewrite Hlen, Hm. split; [reflexivity|].
  apply NoDup_fmap_2; [|apply NoDup_seq].
  intros x y H. apply request_id_inj.
  exact (f_equal (fun o => match o with
                           | Some (SStr t) => t
                           | _ => EmptyString
                           end) H).
Qed.

(** X19. The loop has no exit of its own: while nothing is raised it goes
    on, one call logged per turn. It ends when something is raised: cleanly
    when that is [KeyboardInterrupt], with the exception otherwise. *)
Theorem main_stops_only_when_interrupted turns :
  fst (main turns)
    = match first_interruption turns with
      | None => StillLooping
      | Some KeyboardInterrupt => ExitedCleanly
      | Some e => Crashed e
      end
  ∧ (first_interruption turns = None →
     length (snd (main turns)) = length turns).
Proof.
  unfold main. split.
  - rewrite main_loop_outcome.
    destruct (first_interruption turns) as [[]|]; reflexivity.
  - intros H. destruct (main_loop_log 1 turns []) as (n & _ & Hm & Hf).
    simpl in Hm. rewrite <- (Hf H).
    rewrite <- (length_map call_request_id), Hm, length_map, length_seq.
    reflexivity.
Qed.
End DemoLoop.

Section FurtherRuns.
Import Example ExampleRuns MoreExamples FurtherExamples.
#[local] Existing Instance example_env.


Lemma export_writes_payload_once_witness :
  export stdout_exporter [record1] (stdout_world [])
    = (Return tt,
       sink_step (Emitted stdout_handler payload1)
         (tail (sink_faults (stdout_world []))) (stdout_world [])).
Proof.
  apply (export_writes_payload_once (env := example_env) stdout_exporter
           [record1] payload1 (stdout_world []) stdout_handler).
  - split; [vm_compute; reflexivity | vm_compute; discriminate].
  - vm_compute. reflexivity.
  - left. vm_compute. reflexivity.
Defined.

Lemma exports_keep_order_witness :
  ∃ evs,
    sink_trace (snd (run_calls (map (Export stdout_exporter) three_batches)
                       refused_once_world))
      = sink_trace refused_once_world ++ evs
    ∧ map event_line evs = payloads three_batches
    ∧ Forall (fun ev => event_handler ev = stdout_handler) evs.
Proof.
  apply (exports_keep_order (env := example_env) stdout_exporter
           three_batches refused_once_world stdout_handler).
  split; [vm_compute; reflexivity | vm_compute; discriminate].
Defined.

Lemma warnings_match_caught_failures_witness :
  ∃ evs,
    sink_trace (snd (run_calls (map (Export stdout_exporter) three_batches)
                       refused_once_world))
      = sink_trace refused_once_world ++ evs
    ∧ module_log (snd (run_calls (map (Export stdout_exporter) three_batches)
                         refused_once_world))
      = module_log refused_once_world
        ++ map (mkWarning write_failed_format (log_path stdout_exporter))
             (flat_map caught_error evs).
Proof.
  apply (warnings_match_caught_failures (env := example_env) stdout_exporter
           three_batches refused_once_world stdout_handler).
  split; [vm_compute; reflexivity | vm_compute; discriminate].
Defined.


Lemma constructor_ignores_class_once_installed_witness :
  __init__ (PStr "stdout") "no.such.Handler" (ArgOther "42") (file_world [])
    = __init__ (PStr "stdout") "logging.handlers.RotatingFileHandler" ArgNone
        (file_world []).
Proof.
  refine (proj1 (constructor_ignores_class_once_installed (env := example_env)
                   (PStr "stdout") "no.such.Handler" (ArgOther "42")
                   "logging.handlers.RotatingFileHandler" ArgNone
                   (file_world []) _)).
  vm_compute. discriminate.
Defined.

Lemma Path_stdout_is_a_file_path_witness :
  handler_calls
    (snd (__init__ (PPath "stdout") "logging.handlers.RotatingFileHandler"
            ArgNone start))
    = handler_calls start
      ++ [(rotating_class, PPath "stdout", effective_kwargs ArgNone)].
Proof.
  refine (Path_stdout_is_a_file_path (env := example_env) "stdout"
            "logging.handlers.RotatingFileHandler" ArgNone start tt
            rotating_class _ _ _);
    vm_compute; reflexivity.
Defined.


Lemma setup_logging_passes_mode_only_witness :
  handler_calls (world (snd (setup_logging (PStr "my_service.log")
                               fresh_process)))
    = handler_calls (world fresh_process)
      ++ [(watched_class, PStr "my_service.log", {[ "mode" := SStr "a" ]})].
Proof.
  refine (setup_logging_passes_mode_only (env := example_env)
            (PStr "my_service.log") fresh_process tt watched_class _ _ _ _);
    vm_compute; reflexivity.
Defined.

(** The batch processor cannot be built: the root logger is as before,
    and the handler the constructor installed stays on the shared logger. *)
Lemma failed_setup_leaves_root_logger_witness :
  root_sdk_handlers
    (snd (setup_logging_with processor_fails (PStr "my_service.log")
            fresh_process))
    = root_sdk_handlers fresh_process
  ∧ root_logger
      (world (snd (setup_logging_with processor_fails (PStr "my_service.log")
                     fresh_process)))
    = root_logger (world fresh_process)
  ∧ length (handlers (exporter_logger
                        (world (snd (setup_logging_with processor_fails
                                       (PStr "my_service.log")
                                       fresh_process))))) = 1%nat.
Proof.
  destruct (failed_setup_leaves_root_logger (env := example_env)
              processor_fails (PStr "my_service.log") fresh_process
              (ValueError "max_export_batch_size must be a positive integer."))
    as (H1 & H2 & _).
  - vm_compute. reflexivity.
  - split; [exact H1|]. split; [exact H2 | vm_compute; reflexivity].
Defined.

Lemma turn_call_matches_message_witness :
  al_msg (turn_call 3 error_draws) = "Transient failure processing request."
  ∧ al_level (turn_call 3 error_draws) = LEVEL_ERROR.
Proof.
  destruct (turn_call_matches_message 3 error_draws) as (Hm & Hl & _).
  - vm_compute. right. right. left.
  - split; [exact Hm | exact Hl].
Defined.
End FurtherRuns.
